(** * DataImport: the import popup and its host window

    A shallow embedding of [dataimport/DataImportPopup.py] (the popup that
    lets the user pick a csv, xlsx or sav file, set the parsing options,
    preview the table and hand it back), of the earlier copy kept under
    [DataImport/DataImportPopup.py], and of the host window in [main.py].

    Widgets are records of the Tk state the code reads and writes; the
    callbacks are programs of a small state and exception monad; pandas,
    the file picker and Tk's reading of an [IntVar] are fields of [World]. *)

From Stdlib Require Import String Ascii List ZArith Bool Lia.
From stdpp Require Import base tactics option list strings gmap.
Import ListNotations.

(** ** Python strings *)

(** [str.endswith]: some suffix of [s] is [suffix]. *)
Fixpoint endswith (s suffix : string) : bool :=
  if String.eqb s suffix then true
  else match s with
       | EmptyString => false
       | String _ rest => endswith rest suffix
       end.

(** *** Characters

    A [string] holds the UTF-8 bytes of a Python [str]; the pattern of
    [show] works on its characters. *)

Definition is_continuation (b : ascii) : bool :=
  let n := nat_of_ascii b in Nat.leb 128 n && Nat.ltb n 192.

Definition starts_with_continuation (ch : string) : bool :=
  match ch with
  | String b _ => is_continuation b
  | EmptyString => false
  end.

(** A byte put before the characters of the rest of a text: a byte of a
    multi-byte sequence takes the continuation bytes that follow it. *)
Definition attach (b : ascii) (cs : list string) : list string :=
  match cs with
  | ch :: more =>
      if Nat.leb 128 (nat_of_ascii b) && starts_with_continuation ch
      then String b ch :: more
      else String b EmptyString :: ch :: more
  | [] => [String b EmptyString]
  end.

(** The characters of a text, each as the bytes that encode it. *)
Fixpoint chars (s : string) : list string :=
  match s with
  | EmptyString => []
  | String b rest => attach b (chars rest)
  end.

(** The text of a list of characters. *)
Definition join (cs : list string) : string := fold_right String.append EmptyString cs.

Fixpoint continuation_bits (acc : N) (tail : string) : N :=
  match tail with
  | EmptyString => acc
  | String b rest => continuation_bits (acc * 64 + (N_of_ascii b - 128)) rest
  end.

(** The code point that the bytes of one character encode. Continuation
    bytes without a lead byte encode none; they read as U+FFFD. *)
Definition codepoint (ch : string) : N :=
  match ch with
  | EmptyString => 0
  | String b tail =>
      let n := N_of_ascii b in
      if N.ltb n 128 then n
      else if N.ltb n 192 then 65533
      else if N.ltb n 224 then continuation_bits (n - 192) tail
      else if N.ltb n 240 then continuation_bits (n - 224) tail
      else continuation_bits (n - 240) tail
  end%N.

(** The code points on which [str.isalnum] holds (letters and digits of
    every script), as closed ranges, from the table of Unicode 14.0 that
    Python 3.11 carries. *)
Definition alnum_ranges : list (N * N) :=
  [
   (48, 57); (65, 90); (97, 122); (170, 170); (178, 179); (181, 181);
   (185, 186); (188, 190); (192, 214); (216, 246); (248, 705); (710, 721);
   (736, 740); (748, 748); (750, 750); (880, 884); (886, 887); (890, 893);
   (895, 895); (902, 902); (904, 906); (908, 908); (910, 929); (931, 1013);
   (1015, 1153); (1162, 1327); (1329, 1366); (1369, 1369); (1376, 1416); (1488, 1514);
   (1519, 1522); (1568, 1610); (1632, 1641); (1646, 1647); (1649, 1747); (1749, 1749);
   (1765, 1766); (1774, 1788); (1791, 1791); (1808, 1808); (1810, 1839); (1869, 1957);
   (1969, 1969); (1984, 2026); (2036, 2037); (2042, 2042); (2048, 2069); (2074, 2074);
   (2084, 2084); (2088, 2088); (2112, 2136); (2144, 2154); (2160, 2183); (2185, 2190);
   (2208, 2249); (2308, 2361); (2365, 2365); (2384, 2384); (2392, 2401); (2406, 2415);
   (2417, 2432); (2437, 2444); (2447, 2448); (2451, 2472); (2474, 2480); (2482, 2482);
   (2486, 2489); (2493, 2493); (2510, 2510); (2524, 2525); (2527, 2529); (2534, 2545);
   (2548, 2553); (2556, 2556); (2565, 2570); (2575, 2576); (2579, 2600); (2602, 2608);
   (2610, 2611); (2613, 2614); (2616, 2617); (2649, 2652); (2654, 2654); (2662, 2671);
   (2674, 2676); (2693, 2701); (2703, 2705); (2707, 2728); (2730, 2736); (2738, 2739);
   (2741, 2745); (2749, 2749); (2768, 2768); (2784, 2785); (2790, 2799); (2809, 2809);
   (2821, 2828); (2831, 2832); (2835, 2856); (2858, 2864); (2866, 2867); (2869, 2873);
   (2877, 2877); (2908, 2909); (2911, 2913); (2918, 2927); (2929, 2935); (2947, 2947);
   (2949, 2954); (2958, 2960); (2962, 2965); (2969, 2970); (2972, 2972); (2974, 2975);
   (2979, 2980); (2984, 2986); (2990, 3001); (3024, 3024); (3046, 3058); (3077, 3084);
   (3086, 3088); (3090, 3112); (3114, 3129); (3133, 3133); (3160, 3162); (3165, 3165);
   (3168, 3169); (3174, 3183); (3192, 3198); (3200, 3200); (3205, 3212); (3214, 3216);
   (3218, 3240); (3242, 3251); (3253, 3257); (3261, 3261); (3293, 3294); (3296, 3297);
   (3302, 3311); (3313, 3314); (3332, 3340); (3342, 3344); (3346, 3386); (3389, 3389);
   (3406, 3406); (3412, 3414); (3416, 3425); (3430, 3448); (3450, 3455); (3461, 3478);
   (3482, 3505); (3507, 3515); (3517, 3517); (3520, 3526); (3558, 3567); (3585, 3632);
   (3634, 3635); (3648, 3654); (3664, 3673); (3713, 3714); (3716, 3716); (3718, 3722);
   (3724, 3747); (3749, 3749); (3751, 3760); (3762, 3763); (3773, 3773); (3776, 3780);
   (3782, 3782); (3792, 3801); (3804, 3807); (3840, 3840); (3872, 3891); (3904, 3911);
   (3913, 3948); (3976, 3980); (4096, 4138); (4159, 4169); (4176, 4181); (4186, 4189);
   (4193, 4193); (4197, 4198); (4206, 4208); (4213, 4225); (4238, 4238); (4240, 4249);
   (4256, 4293); (4295, 4295); (4301, 4301); (4304, 4346); (4348, 4680); (4682, 4685);
   (4688, 4694); (4696, 4696); (4698, 4701); (4704, 4744); (4746, 4749); (4752, 4784);
   (4786, 4789); (4792, 4798); (4800, 4800); (4802, 4805); (4808, 4822); (4824, 4880);
   (4882, 4885); (4888, 4954); (4969, 4988); (4992, 5007); (5024, 5109); (5112, 5117);
   (5121, 5740); (5743, 5759); (5761, 5786); (5792, 5866); (5870, 5880); (5888, 5905);
   (5919, 5937); (5952, 5969); (5984, 5996); (5998, 6000); (6016, 6067); (6103, 6103);
   (6108, 6108); (6112, 6121); (6128, 6137); (6160, 6169); (6176, 6264); (6272, 6276);
   (6279, 6312); (6314, 6314); (6320, 6389); (6400, 6430); (6470, 6509); (6512, 6516);
   (6528, 6571); (6576, 6601); (6608, 6618); (6656, 6678); (6688, 6740); (6784, 6793);
   (6800, 6809); (6823, 6823); (6917, 6963); (6981, 6988); (6992, 7001); (7043, 7072);
   (7086, 7141); (7168, 7203); (7232, 7241); (7245, 7293); (7296, 7304); (7312, 7354);
   (7357, 7359); (7401, 7404); (7406, 7411); (7413, 7414); (7418, 7418); (7424, 7615);
   (7680, 7957); (7960, 7965); (7968, 8005); (8008, 8013); (8016, 8023); (8025, 8025);
   (8027, 8027); (8029, 8029); (8031, 8061); (8064, 8116); (8118, 8124); (8126, 8126);
   (8130, 8132); (8134, 8140); (8144, 8147); (8150, 8155); (8160, 8172); (8178, 8180);
   (8182, 8188); (8304, 8305); (8308, 8313); (8319, 8329); (8336, 8348); (8450, 8450);
   (8455, 8455); (8458, 8467); (8469, 8469); (8473, 8477); (8484, 8484); (8486, 8486);
   (8488, 8488); (8490, 8493); (8495, 8505); (8508, 8511); (8517, 8521); (8526, 8526);
   (8528, 8585); (9312, 9371); (9450, 9471); (10102, 10131); (11264, 11492); (11499, 11502);
   (11506, 11507); (11517, 11517); (11520, 11557); (11559, 11559); (11565, 11565); (11568, 11623);
   (11631, 11631); (11648, 11670); (11680, 11686); (11688, 11694); (11696, 11702); (11704, 11710);
   (11712, 11718); (11720, 11726); (11728, 11734); (11736, 11742); (11823, 11823); (12293, 12295);
   (12321, 12329); (12337, 12341); (12344, 12348); (12353, 12438); (12445, 12447); (12449, 12538);
   (12540, 12543); (12549, 12591); (12593, 12686); (12690, 12693); (12704, 12735); (12784, 12799);
   (12832, 12841); (12872, 12879); (12881, 12895); (12928, 12937); (12977, 12991); (13312, 19903);
   (19968, 42124); (42192, 42237); (42240, 42508); (42512, 42539); (42560, 42606); (42623, 42653);
   (42656, 42735); (42775, 42783); (42786, 42888); (42891, 42954); (42960, 42961); (42963, 42963);
   (42965, 42969); (42994, 43009); (43011, 43013); (43015, 43018); (43020, 43042); (43056, 43061);
   (43072, 43123); (43138, 43187); (43216, 43225); (43250, 43255); (43259, 43259); (43261, 43262);
   (43264, 43301); (43312, 43334); (43360, 43388); (43396, 43442); (43471, 43481); (43488, 43492);
   (43494, 43518); (43520, 43560); (43584, 43586); (43588, 43595); (43600, 43609); (43616, 43638);
   (43642, 43642); (43646, 43695); (43697, 43697); (43701, 43702); (43705, 43709); (43712, 43712);
   (43714, 43714); (43739, 43741); (43744, 43754); (43762, 43764); (43777, 43782); (43785, 43790);
   (43793, 43798); (43808, 43814); (43816, 43822); (43824, 43866); (43868, 43881); (43888, 44002);
   (44016, 44025); (44032, 55203); (55216, 55238); (55243, 55291); (63744, 64109); (64112, 64217);
   (64256, 64262); (64275, 64279); (64285, 64285); (64287, 64296); (64298, 64310); (64312, 64316);
   (64318, 64318); (64320, 64321); (64323, 64324); (64326, 64433); (64467, 64829); (64848, 64911);
   (64914, 64967); (65008, 65019); (65136, 65140); (65142, 65276); (65296, 65305); (65313, 65338);
   (65345, 65370); (65382, 65470); (65474, 65479); (65482, 65487); (65490, 65495); (65498, 65500);
   (65536, 65547); (65549, 65574); (65576, 65594); (65596, 65597); (65599, 65613); (65616, 65629);
   (65664, 65786); (65799, 65843); (65856, 65912); (65930, 65931); (66176, 66204); (66208, 66256);
   (66273, 66299); (66304, 66339); (66349, 66378); (66384, 66421); (66432, 66461); (66464, 66499);
   (66504, 66511); (66513, 66517); (66560, 66717); (66720, 66729); (66736, 66771); (66776, 66811);
   (66816, 66855); (66864, 66915); (66928, 66938); (66940, 66954); (66956, 66962); (66964, 66965);
   (66967, 66977); (66979, 66993); (66995, 67001); (67003, 67004); (67072, 67382); (67392, 67413);
   (67424, 67431); (67456, 67461); (67463, 67504); (67506, 67514); (67584, 67589); (67592, 67592);
   (67594, 67637); (67639, 67640); (67644, 67644); (67647, 67669); (67672, 67702); (67705, 67742);
   (67751, 67759); (67808, 67826); (67828, 67829); (67835, 67867); (67872, 67897); (67968, 68023);
   (68028, 68047); (68050, 68096); (68112, 68115); (68117, 68119); (68121, 68149); (68160, 68168);
   (68192, 68222); (68224, 68255); (68288, 68295); (68297, 68324); (68331, 68335); (68352, 68405);
   (68416, 68437); (68440, 68466); (68472, 68497); (68521, 68527); (68608, 68680); (68736, 68786);
   (68800, 68850); (68858, 68899); (68912, 68921); (69216, 69246); (69248, 69289); (69296, 69297);
   (69376, 69415); (69424, 69445); (69457, 69460); (69488, 69505); (69552, 69579); (69600, 69622);
   (69635, 69687); (69714, 69743); (69745, 69746); (69749, 69749); (69763, 69807); (69840, 69864);
   (69872, 69881); (69891, 69926); (69942, 69951); (69956, 69956); (69959, 69959); (69968, 70002);
   (70006, 70006); (70019, 70066); (70081, 70084); (70096, 70106); (70108, 70108); (70113, 70132);
   (70144, 70161); (70163, 70187); (70272, 70278); (70280, 70280); (70282, 70285); (70287, 70301);
   (70303, 70312); (70320, 70366); (70384, 70393); (70405, 70412); (70415, 70416); (70419, 70440);
   (70442, 70448); (70450, 70451); (70453, 70457); (70461, 70461); (70480, 70480); (70493, 70497);
   (70656, 70708); (70727, 70730); (70736, 70745); (70751, 70753); (70784, 70831); (70852, 70853);
   (70855, 70855); (70864, 70873); (71040, 71086); (71128, 71131); (71168, 71215); (71236, 71236);
   (71248, 71257); (71296, 71338); (71352, 71352); (71360, 71369); (71424, 71450); (71472, 71483);
   (71488, 71494); (71680, 71723); (71840, 71922); (71935, 71942); (71945, 71945); (71948, 71955);
   (71957, 71958); (71960, 71983); (71999, 71999); (72001, 72001); (72016, 72025); (72096, 72103);
   (72106, 72144); (72161, 72161); (72163, 72163); (72192, 72192); (72203, 72242); (72250, 72250);
   (72272, 72272); (72284, 72329); (72349, 72349); (72368, 72440); (72704, 72712); (72714, 72750);
   (72768, 72768); (72784, 72812); (72818, 72847); (72960, 72966); (72968, 72969); (72971, 73008);
   (73030, 73030); (73040, 73049); (73056, 73061); (73063, 73064); (73066, 73097); (73112, 73112);
   (73120, 73129); (73440, 73458); (73648, 73648); (73664, 73684); (73728, 74649); (74752, 74862);
   (74880, 75075); (77712, 77808); (77824, 78894); (82944, 83526); (92160, 92728); (92736, 92766);
   (92768, 92777); (92784, 92862); (92864, 92873); (92880, 92909); (92928, 92975); (92992, 92995);
   (93008, 93017); (93019, 93025); (93027, 93047); (93053, 93071); (93760, 93846); (93952, 94026);
   (94032, 94032); (94099, 94111); (94176, 94177); (94179, 94179); (94208, 100343); (100352, 101589);
   (101632, 101640); (110576, 110579); (110581, 110587); (110589, 110590); (110592, 110882); (110928, 110930);
   (110948, 110951); (110960, 111355); (113664, 113770); (113776, 113788); (113792, 113800); (113808, 113817);
   (119520, 119539); (119648, 119672); (119808, 119892); (119894, 119964); (119966, 119967); (119970, 119970);
   (119973, 119974); (119977, 119980); (119982, 119993); (119995, 119995); (119997, 120003); (120005, 120069);
   (120071, 120074); (120077, 120084); (120086, 120092); (120094, 120121); (120123, 120126); (120128, 120132);
   (120134, 120134); (120138, 120144); (120146, 120485); (120488, 120512); (120514, 120538); (120540, 120570);
   (120572, 120596); (120598, 120628); (120630, 120654); (120656, 120686); (120688, 120712); (120714, 120744);
   (120746, 120770); (120772, 120779); (120782, 120831); (122624, 122654); (123136, 123180); (123191, 123197);
   (123200, 123209); (123214, 123214); (123536, 123565); (123584, 123627); (123632, 123641); (124896, 124902);
   (124904, 124907); (124909, 124910); (124912, 124926); (124928, 125124); (125127, 125135); (125184, 125251);
   (125259, 125259); (125264, 125273); (126065, 126123); (126125, 126127); (126129, 126132); (126209, 126253);
   (126255, 126269); (126464, 126467); (126469, 126495); (126497, 126498); (126500, 126500); (126503, 126503);
   (126505, 126514); (126516, 126519); (126521, 126521); (126523, 126523); (126530, 126530); (126535, 126535);
   (126537, 126537); (126539, 126539); (126541, 126543); (126545, 126546); (126548, 126548); (126551, 126551);
   (126553, 126553); (126555, 126555); (126557, 126557); (126559, 126559); (126561, 126562); (126564, 126564);
   (126567, 126570); (126572, 126578); (126580, 126583); (126585, 126588); (126590, 126590); (126592, 126601);
   (126603, 126619); (126625, 126627); (126629, 126633); (126635, 126651); (127232, 127244); (130032, 130041);
   (131072, 173791); (173824, 177976); (177984, 178205); (178208, 183969); (183984, 191456); (194560, 195101);
   (196608, 201546)
  ]%N.

Definition isalnum (n : N) : bool :=
  existsb (fun r => N.leb (fst r) n && N.leb n (snd r)) alnum_ranges.

(** [\w] on a [str] pattern: a letter or digit of any script, or an
    underscore. *)
Definition is_word (n : N) : bool := isalnum n || N.eqb n 95.

(** The class [[ \w-]] of the pattern in [show]: a blank, a word character
    or a hyphen. *)
Definition in_class (ch : string) : bool :=
  let n := codepoint ch in N.eqb n 32 || is_word n || N.eqb n 45.


Definition dot_char (ch : string) : bool := String.eqb ch ".".

(** [[ \w-]+?(?=\.)] tried at the head of [cs]: the lazy repetition takes
    one character of the class, looks ahead for the dot, and takes one more
    character each time the look-ahead fails. *)
Fixpoint match_here (cs : list string) : option (list string) :=
  match cs with
  | [] => None
  | c :: rest =>
      if in_class c then
        match rest with
        | d :: _ =>
            if dot_char d then Some [c]
            else cons c <$> match_here rest
        | [] => None
        end
      else None
  end.

(** The match at the leftmost position that has one. *)
Fixpoint search (cs : list string) : option (list string) :=
  match match_here cs with
  | Some m => Some m
  | None => match cs with
            | [] => None
            | _ :: rest => search rest
            end
  end.

(** [re.search(pattern, s).group(0)], or [None] when nothing matches. *)
Definition re_search (s : string) : option string :=
  join <$> search (chars s).

(** ** Tables and Python values *)

Inductive Cell := CInt (z : Z) | CStr (s : string) | CNaN.

(** A [pd.DataFrame], as far as the code looks at it: [list(df.columns)] and
    [df.values.tolist()]. *)
Record DataFrame := { columns : list string; values : list (list Cell) }.

(** What [show] and [import_data] hand to their caller. The current [show]
    builds a dict with the keys [data_frame] and [data_name]; the earlier one
    returns [self.data_frame], a table or [None]. *)
Inductive PyValue :=
| PyNone
| PyDataFrame (df : DataFrame)
| PyDict (data_frame : option DataFrame) (data_name : option string).

Inductive Exn := AttributeError | KeyError | IndexError | TclError | ExternalError.

(** The value of an expression: a result, or an exception. *)
Inductive Try (A : Type) := Ok (a : A) | Throw (e : Exn).
Arguments Ok {A} a.
Arguments Throw {A} e.

(** How a block of statements ends: it falls through with a value, it
    executes [return], or an exception leaves it. *)
Inductive Control (A : Type) := Next (a : A) | Returned | Raised (e : Exn).
Arguments Next {A} a.
Arguments Returned {A}.
Arguments Raised {A} e.

(** ** Widgets *)

(** [Tableview.build_table_data(coldata, rowdata)] replaces both lists. *)
Record Tableview := { coldata : list string; rowdata : list (list Cell) }.

Definition build_table_data (cols : list string) (rows : list (list Cell)) : Tableview :=
  {| coldata := cols; rowdata := rows |}.

(** The three option frames, with the text of their Tk variables. *)
Inductive OptionsFrame :=
| CSVOptionsFrame (separator_var missing_values_var : string)
| ExcelOptionsFrame (sheet_names : list string)
                    (sheet_var skiprows_var missing_values_var : string)
| SPSSOptionsFrame.

Definition tab : string := String (ascii_of_nat 9) EmptyString.

Definition separator_options : gmap string string :=
  {[ "," := ","; ";" := ";"; "Space" := " "; "Tab" := tab ]}.

(** [CSVOptionsFrame.__init__] *)
Definition new_CSVOptionsFrame : OptionsFrame := CSVOptionsFrame "," "Default".

(** [ExcelOptionsFrame.__init__]: [sheet_names[0]] raises on an empty list;
    [IntVar(value=0)] shows as ["0"]. *)
Definition new_ExcelOptionsFrame (sheet_names : list string) : Try OptionsFrame :=
  match sheet_names with
  | [] => Throw IndexError
  | first :: _ => Ok (ExcelOptionsFrame sheet_names first "0" "Default")
  end.

(** The getters. A frame of another class has no such method. *)
Definition get_separator (fr : OptionsFrame) : Try string :=
  match fr with
  | CSVOptionsFrame sep _ =>
      match separator_options !! sep with
      | Some s => Ok s
      | None => Throw KeyError
      end
  | _ => Throw AttributeError
  end.

Definition na_of (missing_values : string) : option string :=
  if String.eqb missing_values "Default" then None else Some missing_values.

Definition get_na_value (fr : OptionsFrame) : Try (option string) :=
  match fr with
  | CSVOptionsFrame _ mv => Ok (na_of mv)
  | ExcelOptionsFrame _ _ _ mv => Ok (na_of mv)
  | SPSSOptionsFrame => Throw AttributeError
  end.

Definition get_sheet_name (fr : OptionsFrame) : Try string :=
  match fr with
  | ExcelOptionsFrame _ sheet _ _ => Ok sheet
  | _ => Throw AttributeError
  end.

(** [get_skiprows] is [self.skiprows_var.get()]; [intvar_get] is Tk's reading
    of the text of an [IntVar]. *)
Definition get_skiprows (intvar_get : string -> Try Z) (fr : OptionsFrame) : Try Z :=
  match fr with
  | ExcelOptionsFrame _ _ skip _ => intvar_get skip
  | _ => Throw AttributeError
  end.

(** A packed frame of the left column. [refresh_btn] tells whether
    [__select_file] put a refresh button in it. *)
Record Frame := {
  widget_id : nat;
  options : OptionsFrame;
  refresh_btn : bool;
  packed : bool
}.

(** The import button: its master, the table its command is bound to
    ([lambda data=df: ...]), and whether it is packed. *)
Record Button := {
  master : option nat;
  command : DataFrame;
  btn_packed : bool
}.

Definition forget (f : Frame) : Frame :=
  {| widget_id := widget_id f; options := options f;
     refresh_btn := refresh_btn f; packed := false |}.

(** ** The world outside *)

(** pandas and Tk. A parser that raises gives [Throw]. *)
Record World := {
  ExcelFile_sheet_names : string -> Try (list string);
  read_csv : string -> string -> option string -> Try DataFrame;
  read_excel : string -> string -> Z -> option string -> Try DataFrame;
  read_spss : string -> Try DataFrame;
  IntVar_get : string -> Try Z
}.

(** ** The popup *)

Record DataImportPopup := {
  data_frame : option DataFrame;
  filepath : option string;
  show_preview : Z;
  import_options_frame : option Frame;
  preview_tableview : Tableview;
  import_btn : option Button;
  widgets : nat;
  errors : list string;
  destroyed : bool
}.

(** [DataImportPopup.__init__] *)
Definition new_DataImportPopup : DataImportPopup :=
  {| data_frame := None; filepath := None; show_preview := 1;
     import_options_frame := None; preview_tableview := build_table_data [] [];
     import_btn := None; widgets := 0; errors := []; destroyed := false |}.

(** *** Statements over the popup *)

Definition M (A : Type) : Type := DataImportPopup -> Control A * DataImportPopup.

Definition ret {A} (a : A) : M A := fun st => (Next a, st).

Definition bind {A B} (m : M A) (k : A -> M B) : M B := fun st =>
  match m st with
  | (Next a, st') => k a st'
  | (Returned, st') => (Returned, st')
  | (Raised e, st') => (Raised e, st')
  end.

Declare Scope py_scope.
Delimit Scope py_scope with py.
Notation "x <- m ;; k" := (bind m (fun x => k))
  (at level 61, m at next level, k at level 200) : py_scope.
Notation "m ;;; k" := (bind m (fun _ => k))
  (at level 61, k at level 200) : py_scope.
Local Open Scope py_scope.

(** [return] *)
Definition return_ {A} : M A := fun st => (Returned, st).

Definition raise {A} (e : Exn) : M A := fun st => (Raised e, st).

Definition eval {A} (t : Try A) : M A :=
  match t with Ok a => ret a | Throw e => raise e end.

(** [try: body  except Exception: handler] *)
Definition try_except {A} (body : M A) (handler : Exn -> M A) : M A := fun st =>
  match body st with
  | (Raised e, st') => handler e st'
  | r => r
  end.

(** A call of a method whose body is [body]: [return] ends the call. *)
Definition call (body : M unit) : M unit := fun st =>
  match body st with
  | (Returned, st') => (Next tt, st')
  | r => r
  end.

Definition gets {A} (f : DataImportPopup -> A) : M A := fun st => (Next (f st), st).

Definition modify (f : DataImportPopup -> DataImportPopup) : M unit :=
  fun st => (Next tt, f st).

(** *** Attribute writes *)

Definition set_data_frame (v : option DataFrame) (st : DataImportPopup) : DataImportPopup :=
  {| data_frame := v; filepath := filepath st; show_preview := show_preview st;
     import_options_frame := import_options_frame st;
     preview_tableview := preview_tableview st; import_btn := import_btn st;
     widgets := widgets st; errors := errors st; destroyed := destroyed st |}.

Definition set_filepath (v : option string) (st : DataImportPopup) : DataImportPopup :=
  {| data_frame := data_frame st; filepath := v; show_preview := show_preview st;
     import_options_frame := import_options_frame st;
     preview_tableview := preview_tableview st; import_btn := import_btn st;
     widgets := widgets st; errors := errors st; destroyed := destroyed st |}.

Definition set_show_preview (v : Z) (st : DataImportPopup) : DataImportPopup :=
  {| data_frame := data_frame st; filepath := filepath st; show_preview := v;
     import_options_frame := import_options_frame st;
     preview_tableview := preview_tableview st; import_btn := import_btn st;
     widgets := widgets st; errors := errors st; destroyed := destroyed st |}.

Definition set_import_options_frame (v : option Frame) (st : DataImportPopup) : DataImportPopup :=
  {| data_frame := data_frame st; filepath := filepath st; show_preview := show_preview st;
     import_options_frame := v;
     preview_tableview := preview_tableview st; import_btn := import_btn st;
     widgets := widgets st; errors := errors st; destroyed := destroyed st |}.

Definition set_preview_tableview (v : Tableview) (st : DataImportPopup) : DataImportPopup :=
  {| data_frame := data_frame st; filepath := filepath st; show_preview := show_preview st;
     import_options_frame := import_options_frame st;
     preview_tableview := v; import_btn := import_btn st;
     widgets := widgets st; errors := errors st; destroyed := destroyed st |}.

Definition set_import_btn (v : option Button) (st : DataImportPopup) : DataImportPopup :=
  {| data_frame := data_frame st; filepath := filepath st; show_preview := show_preview st;
     import_options_frame := import_options_frame st;
     preview_tableview := preview_tableview st; import_btn := v;
     widgets := widgets st; errors := errors st; destroyed := destroyed st |}.

Definition set_widgets (v : nat) (st : DataImportPopup) : DataImportPopup :=
  {| data_frame := data_frame st; filepath := filepath st; show_preview := show_preview st;
     import_options_frame := import_options_frame st;
     preview_tableview := preview_tableview st; import_btn := import_btn st;
     widgets := v; errors := errors st; destroyed := destroyed st |}.

Definition set_errors (v : list string) (st : DataImportPopup) : DataImportPopup :=
  {| data_frame := data_frame st; filepath := filepath st; show_preview := show_preview st;
     import_options_frame := import_options_frame st;
     preview_tableview := preview_tableview st; import_btn := import_btn st;
     widgets := widgets st; errors := v; destroyed := destroyed st |}.

Definition set_destroyed (v : bool) (st : DataImportPopup) : DataImportPopup :=
  {| data_frame := data_frame st; filepath := filepath st; show_preview := show_preview st;
     import_options_frame := import_options_frame st;
     preview_tableview := preview_tableview st; import_btn := import_btn st;
     widgets := widgets st; errors := errors st; destroyed := v |}.

(** *** Attribute reads and small calls *)

(** [self.filepath]: [__init__] does not assign it, so reading it before a
    file was picked raises. *)
Definition self_filepath : M string := fun st =>
  match filepath st with
  | Some path => (Next path, st)
  | None => (Raised AttributeError, st)
  end.

(** [self.import_options_frame.get_...()]: [None] has no such method. *)
Definition frame_call {A} (getter : OptionsFrame -> Try A) : M A := fun st =>
  match import_options_frame st with
  | Some f => eval (getter (options f)) st
  | None => (Raised AttributeError, st)
  end.

(** [Messagebox.show_error(msg)]: the newest message is the head. *)
Definition show_error (msg : string) : M unit :=
  modify (fun st => set_errors (msg :: errors st) st).

(** A new frame or button gets the next identifier. *)
Definition new_widget : M nat := fun st =>
  (Next (widgets st), set_widgets (S (widgets st)) st).

Definition unsupported_msg : string :=
  "Selected file must be one of the following file types: csv, xlsx, .sav.".

Definition skiprows_msg : string := "Skip rows must be a number.".

(** *** [__import_preview_data] *)

(** The first half, up to [df]: the branch on the suffix of the path, each
    parser call in its [try]. *)
Definition load_selected_file (w : World) : M DataFrame :=
  path <- self_filepath ;;
  if endswith path ".csv" then
    try_except
      (sep <- frame_call get_separator ;;
       na <- frame_call get_na_value ;;
       eval (read_csv w path sep na))
      (fun _ => return_)
  else if endswith path ".xlsx" then
    try_except
      (try_except
         (frame_call (get_skiprows (IntVar_get w)) ;;; ret tt)
         (fun _ => show_error skiprows_msg ;;; return_) ;;;
       sheet <- frame_call get_sheet_name ;;
       skip <- frame_call (get_skiprows (IntVar_get w)) ;;
       na <- frame_call get_na_value ;;
       eval (read_excel w path sheet skip na))
      (fun _ => return_)
  else if endswith path ".sav" then
    try_except (eval (read_spss w path)) (fun _ => return_)
  else return_.

Definition forget_button (b : Button) : Button :=
  {| master := master b; command := command b; btn_packed := false |}.

(** The second half: fill the preview, then replace the import button by one
    bound to [df]. *)
Definition show_table (df : DataFrame) : M unit :=
  shown <- gets show_preview ;;
  (if Z.eqb shown 1
   then modify (set_preview_tableview (build_table_data (columns df) (values df)))
   else modify (set_preview_tableview (build_table_data [] []))) ;;;
  modify (fun st => set_import_btn (forget_button <$> import_btn st) st) ;;;
  fr <- gets import_options_frame ;;
  new_widget ;;;
  modify (set_import_btn
            (Some {| master := widget_id <$> fr; command := df; btn_packed := true |})).

Definition import_preview_data (w : World) : M unit :=
  call (df <- load_selected_file w ;; show_table df).

(** *** [__select_file] *)

(** [current_filepath] is what [filedialog.askopenfilename] returned. The
    body up to the final call of [__import_preview_data]. *)
Definition select_file_options (w : World) (current_filepath : string) : M unit :=
  (if String.eqb current_filepath "" then return_
   else modify (set_filepath (Some current_filepath))) ;;;
  modify (fun st => set_import_options_frame (forget <$> import_options_frame st) st) ;;;
  path <- self_filepath ;;
  if endswith path ".csv" then
    id <- new_widget ;;
    modify (set_import_options_frame
              (Some {| widget_id := id; options := new_CSVOptionsFrame;
                       refresh_btn := true; packed := true |}))
  else if endswith path ".xlsx" then
    names <- eval (ExcelFile_sheet_names w path) ;;
    id <- new_widget ;;
    opts <- eval (new_ExcelOptionsFrame names) ;;
    modify (set_import_options_frame
              (Some {| widget_id := id; options := opts;
                       refresh_btn := true; packed := true |}))
  else if endswith path ".sav" then
    id <- new_widget ;;
    modify (set_import_options_frame
              (Some {| widget_id := id; options := SPSSOptionsFrame;
                       refresh_btn := false; packed := true |}))
  else
    show_error unsupported_msg ;;; return_.

Definition select_file (w : World) (current_filepath : string) : M unit :=
  call (select_file_options w current_filepath ;;; import_preview_data w).

(** *** [__return_data] and [show] *)

Definition return_data (df : DataFrame) : M unit :=
  modify (set_data_frame (Some df)) ;;;
  modify (set_destroyed true).

(** The name [show] extracts; the bare [except] turns a missing [filepath]
    and a failed search into [None]. *)
Definition filename (st : DataImportPopup) : option string :=
  match filepath st with
  | Some path => re_search path
  | None => None
  end.

(** What [show] returns once the window is gone. *)
Definition show_result (st : DataImportPopup) : PyValue :=
  PyDict (data_frame st) (filename st).

(** *** The user at the window *)

Inductive Var := separator_var | missing_values_var | sheet_var | skiprows_var.

(** Typing [text] into the entry or combobox of a variable. *)
Definition type_into (v : Var) (text : string) (fr : OptionsFrame) : OptionsFrame :=
  match fr, v with
  | CSVOptionsFrame _ mv, separator_var => CSVOptionsFrame text mv
  | CSVOptionsFrame sep _, missing_values_var => CSVOptionsFrame sep text
  | ExcelOptionsFrame names _ skip mv, sheet_var => ExcelOptionsFrame names text skip mv
  | ExcelOptionsFrame names sheet _ mv, skiprows_var => ExcelOptionsFrame names sheet text mv
  | ExcelOptionsFrame names sheet skip _, missing_values_var =>
      ExcelOptionsFrame names sheet skip text
  | _, _ => fr
  end.

Definition with_options (f : OptionsFrame -> OptionsFrame) (fr : Frame) : Frame :=
  {| widget_id := widget_id fr; options := f (options fr);
     refresh_btn := refresh_btn fr; packed := packed fr |}.

(** The check button [show_preview_selection], [onvalue=1], [offvalue=0]. *)
Definition toggle_show_preview (st : DataImportPopup) : DataImportPopup :=
  set_show_preview (if Z.eqb (show_preview st) 1 then 0 else 1) st.

(** The import button is on screen when it is packed in the options frame
    that is packed now. *)
Definition commit_available (st : DataImportPopup) : bool :=
  match import_btn st, import_options_frame st with
  | Some b, Some fr =>
      btn_packed b && packed fr
      && match master b with Some m => Nat.eqb m (widget_id fr) | None => false end
  | _, _ => false
  end.

(** What the user does while the window is open. Each press of a button
    meets the world as it is at that moment. *)
Inductive Event :=
| ClickSelectFile (w : World) (picked : string)
| ClickRefresh (w : World)
| ToggleShowPreview
| TypeInto (v : Var) (text : string).

(** An exception that leaves a callback is reported by Tk and the window
    goes on with the state the callback left. *)
Definition handle (e : Event) (st : DataImportPopup) : DataImportPopup :=
  match e with
  | ClickSelectFile w picked => snd (select_file w picked st)
  | ClickRefresh w => snd (import_preview_data w st)
  | ToggleShowPreview => toggle_show_preview st
  | TypeInto v text =>
      set_import_options_frame (with_options (type_into v text) <$> import_options_frame st) st
  end.

Definition run (evs : list Event) (st : DataImportPopup) : DataImportPopup :=
  fold_left (fun s e => handle e s) evs st.

(** Pressing the import button runs its command. *)
Definition click_import (st : DataImportPopup) : DataImportPopup :=
  match import_btn st with
  | Some b => snd (return_data (command b) st)
  | None => st
  end.

(** How the window goes away: by the import button when it is on screen, or
    by closing the window. *)
Inductive Closing := ClickImport | CloseWindow.

Definition wait_window (evs : list Event) (c : Closing) (st : DataImportPopup)
  : DataImportPopup :=
  let st' := run evs st in
  match c with
  | ClickImport => if commit_available st' then click_import st' else set_destroyed true st'
  | CloseWindow => set_destroyed true st'
  end.

Definition show (evs : list Event) (c : Closing) (st : DataImportPopup) : PyValue :=
  show_result (wait_window evs c st).

(** [import_data(root)] *)
Definition import_data (evs : list Event) (c : Closing) : PyValue :=
  show evs c new_DataImportPopup.

(** ** The earlier copy, [DataImport/DataImportPopup.py]

    Same widgets and attributes. [__select_file] stores whatever the picker
    returned and reports nothing, the xlsx branch has no check of its own on
    the skip rows, and [show] returns [self.data_frame]. *)
Module Legacy.

Definition load_selected_file (w : World) : M DataFrame :=
  path <- self_filepath ;;
  if endswith path ".csv" then
    try_except
      (sep <- frame_call get_separator ;;
       na <- frame_call get_na_value ;;
       eval (read_csv w path sep na))
      (fun _ => return_)
  else if endswith path ".xlsx" then
    try_except
      (sheet <- frame_call get_sheet_name ;;
       skip <- frame_call (get_skiprows (IntVar_get w)) ;;
       na <- frame_call get_na_value ;;
       eval (read_excel w path sheet skip na))
      (fun _ => return_)
  else if endswith path ".sav" then
    try_except (eval (read_spss w path)) (fun _ => return_)
  else return_.

Definition import_preview_data (w : World) : M unit :=
  call (df <- load_selected_file w ;; show_table df).

Definition select_file (w : World) (picked : string) : M unit :=
  call (
    modify (set_filepath (Some picked)) ;;;
    modify (fun st => set_import_options_frame (forget <$> import_options_frame st) st) ;;;
    path <- self_filepath ;;
    (if endswith path ".csv" then
       id <- new_widget ;;
       modify (set_import_options_frame
                 (Some {| widget_id := id; options := new_CSVOptionsFrame;
                          refresh_btn := true; packed := true |}))
     else if endswith path ".xlsx" then
       names <- eval (ExcelFile_sheet_names w path) ;;
       id <- new_widget ;;
       opts <- eval (new_ExcelOptionsFrame names) ;;
       modify (set_import_options_frame
                 (Some {| widget_id := id; options := opts;
                          refresh_btn := true; packed := true |}))
     else if endswith path ".sav" then
       id <- new_widget ;;
       modify (set_import_options_frame
                 (Some {| widget_id := id; options := SPSSOptionsFrame;
                          refresh_btn := false; packed := true |}))
     else ret tt) ;;;
    import_preview_data w).

Definition handle (e : Event) (st : DataImportPopup) : DataImportPopup :=
  match e with
  | ClickSelectFile w picked => snd (select_file w picked st)
  | ClickRefresh w => snd (import_preview_data w st)
  | ToggleShowPreview => toggle_show_preview st
  | TypeInto v text =>
      set_import_options_frame
        (with_options (type_into v text) <$> import_options_frame st) st
  end.

Definition run (evs : list Event) (st : DataImportPopup) : DataImportPopup :=
  fold_left (fun s e => handle e s) evs st.

Definition wait_window (evs : list Event) (c : Closing) (st : DataImportPopup)
  : DataImportPopup :=
  let st' := run evs st in
  match c with
  | ClickImport => if commit_available st' then click_import st' else set_destroyed true st'
  | CloseWindow => set_destroyed true st'
  end.

(** [return self.data_frame] *)
Definition show_result (st : DataImportPopup) : PyValue :=
  match data_frame st with
  | Some df => PyDataFrame df
  | None => PyNone
  end.

Definition show (evs : list Event) (c : Closing) (st : DataImportPopup) : PyValue :=
  show_result (wait_window evs c st).

Definition import_data (evs : list Event) (c : Closing) : PyValue :=
  show evs c new_DataImportPopup.

End Legacy.

(** ** The host window, [main.py] *)
Module Main.

Record DataImportApp := {
  data_frame : option DataFrame;
  tableview : Tableview
}.

(** [DataImportApp.__init__] *)
Definition new_DataImportApp : DataImportApp :=
  {| data_frame := None; tableview := build_table_data [] [] |}.

(** [open_import_window], given what [import_data(self.root)] returned.
    [.columns] and [.values] are attributes of a table; a dict has
    neither. *)
Definition open_import_window (result : PyValue) (app : DataImportApp)
  : Control unit * DataImportApp :=
  match result with
  | PyNone => (Next tt, app)
  | PyDataFrame df =>
      (Next tt,
       {| data_frame := data_frame app;
          tableview := build_table_data (columns df) (values df) |})
  | PyDict _ _ => (Raised AttributeError, app)
  end.

End Main.

(** ** Sample worlds *)

Fixpoint digits (s : string) (acc : Z) : option Z :=
  match s with
  | EmptyString => Some acc
  | String c rest =>
      let n := nat_of_ascii c in
      if Nat.leb 48 n && Nat.leb n 57
      then digits rest (10 * acc + Z.of_nat (n - 48))
      else None
  end.

(** A reading of signed decimal literals, as Tk reads them when they have no
    leading zero; any other text raises. Used by the sample worlds only. *)
Definition decimal_getint (text : string) : Try Z :=
  match text with
  | EmptyString => Throw TclError
  | String "-" EmptyString => Throw TclError
  | String "-" rest =>
      match digits rest 0 with Some n => Ok (- n)%Z | None => Throw TclError end
  | _ =>
      match digits text 0 with Some n => Ok n | None => Throw TclError end
  end.

Definition ab_table : DataFrame :=
  {| columns := ["a"; "b"]; values := [[CInt 1; CInt 2]] |}.

Definition xy_table : DataFrame :=
  {| columns := ["x"; "y"]; values := [[CInt 3; CInt 4]; [CInt 5; CNaN]] |}.

(** Every file reads as [df]; a workbook has the one sheet ["Sheet1"]. *)
Definition readable (df : DataFrame) : World :=
  {| ExcelFile_sheet_names := fun _ => Ok ["Sheet1"];
     read_csv := fun _ _ _ => Ok df;
     read_excel := fun _ _ _ _ => Ok df;
     read_spss := fun _ => Ok df;
     IntVar_get := decimal_getint |}.

(** No file can be read: every pandas call raises. *)
Definition unreadable : World :=
  {| ExcelFile_sheet_names := fun _ => Throw ExternalError;
     read_csv := fun _ _ _ => Throw ExternalError;
     read_excel := fun _ _ _ _ => Throw ExternalError;
     read_spss := fun _ => Throw ExternalError;
     IntVar_get := decimal_getint |}.

(** A workbook with the one sheet ["Sheet1"]: [read_excel] raises for any
    other sheet name; every other file reads as [df]. *)
Definition one_sheet (df : DataFrame) : World :=
  {| ExcelFile_sheet_names := fun _ => Ok ["Sheet1"];
     read_csv := fun _ _ _ => Ok df;
     read_excel := fun _ sheet _ _ =>
       if String.eqb sheet "Sheet1" then Ok df else Throw ExternalError;
     read_spss := fun _ => Ok df;
     IntVar_get := decimal_getint |}.

(** The popup after the csv file [/tmp/sales_Q1.csv] was picked and read. *)
Definition sales_open : DataImportPopup :=
  snd (select_file (readable ab_table) "/tmp/sales_Q1.csv" new_DataImportPopup).

(** The popup after the workbook [/tmp/book.xlsx] was picked and read. *)
Definition book_open : DataImportPopup :=
  snd (select_file (readable ab_table) "/tmp/book.xlsx" new_DataImportPopup).

(** ** The file kinds of the data model *)

Inductive FileKind := CSV | EXCEL | SPSS | UNKNOWN.

(** The chain of [endswith] tests that [__select_file] and
    [__import_preview_data] both run on [self.filepath]. *)
Definition file_kind (path : string) : FileKind :=
  if endswith path ".csv" then CSV
  else if endswith path ".xlsx" then EXCEL
  else if endswith path ".sav" then SPSS
  else UNKNOWN.

(** ** The name of the result, in the words of the specification *)





(** ** Which refresh parsed a table *)

(** The table [__import_preview_data] parses in state [st], when it gets
    that far. *)
Definition parsed (w : World) (st : DataImportPopup) : option DataFrame :=
  match load_selected_file w st with
  | (Next df, _) => Some df
  | _ => None
  end.

(** The table parsed by the refresh that a press of a button runs. *)
Definition parsed_by (e : Event) (st : DataImportPopup) : option DataFrame :=
  match e with
  | ClickRefresh w => parsed w st
  | ClickSelectFile w picked =>
      match select_file_options w picked st with
      | (Next _, st') => parsed w st'
      | _ => None
      end
  | _ => None
  end.

(** The table of the most recent refresh that parsed one. *)
Fixpoint last_parsed (evs : list Event) (st : DataImportPopup) : option DataFrame :=
  match evs with
  | [] => None
  | e :: evs' =>
      match last_parsed evs' (handle e st) with
      | Some df => Some df
      | None => parsed_by e st
      end
  end.



Fixpoint last_char (s : string) : option ascii :=
  match s with
  | EmptyString => None
  | String c EmptyString => Some c
  | String _ rest => last_char rest
  end.

Fixpoint last_item (cs : list string) : option string :=
  match cs with
  | [] => None
  | [c] => Some c
  | _ :: rest => last_item rest
  end.

(** [cs] is empty or ends in a character outside the class. *)
Definition ends_outside_class (cs : list string) : bool :=
  match last_item cs with
  | Some c => negb (in_class c)
  | None => true
  end.

(** The class of the frame that goes with a kind. *)
Definition frame_kind (fr : OptionsFrame) : FileKind :=
  match fr with
  | CSVOptionsFrame _ _ => CSV
  | ExcelOptionsFrame _ _ _ _ => EXCEL
  | SPSSOptionsFrame => SPSS
  end.

(** The table shown for [df] under the current setting of the check button. *)
Definition preview_of (shown : Z) (df : DataFrame) : Tableview :=
  if Z.eqb shown 1 then build_table_data (columns df) (values df)
  else build_table_data [] [].

(** An expression that raises. *)
Definition raises {A} (t : Try A) : Prop :=
  match t with Throw _ => True | Ok _ => False end.

(** The three fields the specification calls the prior state of a file
    selection. *)
Definition keeps_selection (st st' : DataImportPopup) : Prop :=
  filepath st' = filepath st
  /\ import_options_frame st' = import_options_frame st
  /\ preview_tableview st' = preview_tableview st.

(** ** Invariants of the window *)

(** Identifiers in use are below the count of widgets made so far. *)
Definition ids_bounded (st : DataImportPopup) : Prop :=
  (forall fr, import_options_frame st = Some fr -> widget_id fr < widgets st)
  /\ (forall b m, import_btn st = Some b -> master b = Some m -> m < widgets st).

(** An options frame that is on screen is of the class that goes with the
    stored path. *)
Definition frame_fits_path (st : DataImportPopup) : Prop :=
  forall fr, import_options_frame st = Some fr -> packed fr = true ->
  exists path, filepath st = Some path /\ frame_kind (options fr) = file_kind path.

(** Some character of the class is directly followed by a dot. *)
Fixpoint dot_after_class (cs : list string) : bool :=
  match cs with
  | [] => false
  | c :: rest =>
      match rest with
      | [] => false
      | d :: _ => (in_class c && dot_char d) || dot_after_class rest
      end
  end.

(** The popup after [/tmp/sales_Q1.csv] was read and [;] chosen as the
    separator. *)
Definition sales_semicolon : DataImportPopup :=
  handle (TypeInto separator_var ";") sales_open.

(** * Properties *)

Ltac py_unfold :=
  unfold load_selected_file, Legacy.load_selected_file, show_table, try_except,
    bind, call, frame_call, self_filepath, eval, ret, raise, return_, show_error,
    new_widget, modify, gets in *.

Example re_search_sales : re_search "/tmp/sales_Q1.csv" = Some "sales_Q1".
Proof. reflexivity. Qed.

(** ** Suffixes *)

Lemma endswith_unfold s suffix :
  endswith s suffix =
  if String.eqb s suffix then true
  else match s with
       | EmptyString => false
       | String _ rest => endswith rest suffix
       end.
Proof. destruct s; reflexivity. Qed.

Lemma append_nil (t : string) : "" +:+ t = t.
Proof. reflexivity. Qed.

Lemma append_cons c (s t : string) : String c s +:+ t = String c (s +:+ t).
Proof. reflexivity. Qed.

Lemma endswith_spec s suffix :
  endswith s suffix = true <-> exists pre, s = pre +:+ suffix.
Proof.
  split.
  - induction s as [|c s IH]; rewrite endswith_unfold.
    + destruct (String.eqb_spec "" suffix) as [<-|]; [|discriminate].
      intros _. by exists "".
    + destruct (String.eqb_spec (String c s) suffix) as [<-|].
      * intros _. by exists "".
      * intros [pre ->]%IH. by exists (String c pre).
  - intros [pre ->]. induction pre as [|c pre IH].
    + rewrite endswith_unfold, append_nil. by rewrite String.eqb_refl.
    + rewrite endswith_unfold, append_cons.
      destruct (String.eqb _ _); [done|]. exact IH.
Qed.

Lemma length_append (s t : string) :
  String.length (s +:+ t) = String.length s + String.length t.
Proof.
  induction s as [|c s IH]; [done|].
  rewrite append_cons. cbn. by rewrite IH.
Qed.

(** A suffix test looks at no more of the text than the suffix is long. *)
Lemma endswith_append pre t suffix :
  String.length suffix <= String.length t ->
  endswith (pre +:+ t) suffix = endswith t suffix.
Proof.
  intros Hlen. induction pre as [|c pre IH]; [done|].
  rewrite append_cons, endswith_unfold.
  destruct (String.eqb_spec (String c (pre +:+ t)) suffix) as [<-|_]; [|exact IH].
  cbn in Hlen. rewrite length_append in Hlen. lia.
Qed.

Lemma last_char_append s t : t <> "" -> last_char (s +:+ t) = last_char t.
Proof.
  intros Ht. induction s as [|c s IH]; [done|].
  rewrite append_cons. cbn. rewrite IH. destruct (s +:+ t) eqn:E; [|done].
  destruct s; [by rewrite append_nil in E|by rewrite append_cons in E].
Qed.

Lemma endswith_last_char s suffix :
  suffix <> "" -> endswith s suffix = true -> last_char s = last_char suffix.
Proof. intros Hne [pre ->]%endswith_spec. by apply last_char_append. Qed.

(** ** File kinds *)

Lemma file_kind_csv path :
  file_kind path = CSV <-> exists pre, path = pre +:+ ".csv".
Proof.
  rewrite <- endswith_spec. unfold file_kind.
  destruct (endswith path ".csv"); [done|].
  destruct (endswith path ".xlsx"); [done|].
  by destruct (endswith path ".sav").
Qed.

Lemma file_kind_excel path :
  file_kind path = EXCEL <-> exists pre, path = pre +:+ ".xlsx".
Proof.
  split.
  - intros H. apply endswith_spec. unfold file_kind in H.
    destruct (endswith path ".csv"); [done|].
    destruct (endswith path ".xlsx"); [done|].
    by destruct (endswith path ".sav").
  - intros [pre ->]. unfold file_kind.
    rewrite (endswith_append pre ".xlsx" ".csv") by (cbn; lia).
    rewrite (endswith_append pre ".xlsx" ".xlsx") by (cbn; lia).
    reflexivity.
Qed.

Lemma file_kind_spss path :
  file_kind path = SPSS <-> exists pre, path = pre +:+ ".sav".
Proof.
  split.
  - intros H. apply endswith_spec. unfold file_kind in H.
    destruct (endswith path ".csv"); [done|].
    destruct (endswith path ".xlsx"); [done|].
    by destruct (endswith path ".sav").
  - intros [pre ->]. unfold file_kind.
    rewrite (endswith_append pre ".sav" ".csv") by (cbn; lia).
    rewrite (endswith_append pre ".sav" ".sav") by (cbn; lia).
    destruct (endswith (pre +:+ ".sav") ".xlsx") eqn:E; [|reflexivity].
    apply endswith_last_char in E; [|done].
    rewrite last_char_append in E by done. discriminate.
Qed.

Lemma file_kind_unknown path :
  file_kind path = UNKNOWN <->
  endswith path ".csv" = false /\ endswith path ".xlsx" = false
  /\ endswith path ".sav" = false.
Proof.
  unfold file_kind.
  destruct (endswith path ".csv"), (endswith path ".xlsx"), (endswith path ".sav");
    (split; [intros ?|intros (? & ? & ?)]; done).
Qed.

(** A path whose last four characters are not one of the three suffixes, and
    whose last character is not an [x], is of no known kind. *)
Lemma file_kind_other_suffix pre (t : string) :
  String.length t = 4 ->
  endswith t ".csv" = false -> endswith t ".sav" = false ->
  last_char t <> Some "x"%char ->
  file_kind (pre +:+ t) = UNKNOWN.
Proof.
  intros Hlen Hcsv Hsav Hlast. apply file_kind_unknown.
  rewrite (endswith_append pre t ".csv"), (endswith_append pre t ".sav")
    by (rewrite Hlen; cbn; lia).
  split_and!; [done| |done].
  destruct (endswith (pre +:+ t) ".xlsx") eqn:E; [|reflexivity].
  apply endswith_last_char in E; [|done].
  rewrite last_char_append in E by (by intros ->). done.
Qed.

Lemma append_not_empty pre (t : string) : t <> "" -> pre +:+ t <> "".
Proof. intros Ht E. by destruct pre; [rewrite append_nil in E|]. Qed.

(** What [__select_file] does before it refreshes, by the kind of the path
    that was picked. *)
Lemma select_file_options_unknown w picked st :
  picked <> "" -> file_kind picked = UNKNOWN ->
  select_file_options w picked st =
  (Returned,
   set_errors (unsupported_msg :: errors st)
     (set_import_options_frame (forget <$> import_options_frame st)
        (set_filepath (Some picked) st))).
Proof.
  intros Hne (Hc & Hx & Hs)%file_kind_unknown.
  apply String.eqb_neq in Hne.
  unfold select_file_options, bind, modify, self_filepath, show_error, return_.
  rewrite Hne. cbn. by rewrite Hc, Hx, Hs.
Qed.

Lemma select_file_options_known w picked st :
  picked <> "" -> file_kind picked <> UNKNOWN ->
  forall st', select_file_options w picked st = (Next tt, st') ->
  exists fr, import_options_frame st' = Some fr
             /\ frame_kind (options fr) = file_kind picked
             /\ packed fr = true /\ filepath st' = Some picked.
Proof.
  intros Hne Hk st'. apply String.eqb_neq in Hne. revert Hk.
  unfold file_kind, select_file_options, bind, modify, self_filepath, show_error,
    return_, new_widget, eval, ret, raise, new_ExcelOptionsFrame.
  rewrite Hne. cbn.
  destruct (endswith picked ".csv"); cbn.
  { intros _ [= <-]. eauto. }
  destruct (endswith picked ".xlsx"); cbn.
  { intros _. destruct (ExcelFile_sheet_names w picked) as [[|n ns]|]; cbn; try done.
    intros [= <-]. eauto. }
  destruct (endswith picked ".sav"); cbn; [|done].
  intros _ [= <-]. eauto.
Qed.

(** ** The refresh, step by step *)

(** The second half of the refresh always runs to its end, and writes the
    preview, the button and the widget count. *)
Lemma show_table_spec df st :
  show_table df st =
  (Next tt,
   {| data_frame := data_frame st; filepath := filepath st;
      show_preview := show_preview st;
      import_options_frame := import_options_frame st;
      preview_tableview := preview_of (show_preview st) df;
      import_btn := Some {| master := widget_id <$> import_options_frame st;
                            command := df; btn_packed := true |};
      widgets := S (widgets st); errors := errors st;
      destroyed := destroyed st |}).
Proof.
  unfold preview_of. py_unfold. by destruct (Z.eqb (show_preview st) 1).
Qed.

(** The first half leaves the popup as it was, but for the one message about
    the skip rows. *)
Lemma load_selected_file_cases w st :
  (exists df, load_selected_file w st = (Next df, st))
  \/ load_selected_file w st = (Returned, st)
  \/ load_selected_file w st = (Returned, set_errors (skiprows_msg :: errors st) st)
  \/ load_selected_file w st = (Raised AttributeError, st).
Proof.
  py_unfold. destruct st as [df0 [path|] shown [[id opts rb pk]|] tv btn n errs d]; cbn;
    repeat (case_match; simplify_eq/=); eauto 6.
Qed.

Lemma import_preview_data_unfold w st :
  import_preview_data w st =
  match load_selected_file w st with
  | (Next df, st') => show_table df st'
  | (Returned, st') => (Next tt, st')
  | (Raised e, st') => (Raised e, st')
  end.
Proof.
  unfold import_preview_data, call, bind.
  destruct (load_selected_file w st) as [[df| |e] st']; [|done..].
  by rewrite show_table_spec.
Qed.

Lemma select_file_unfold w picked st :
  select_file w picked st =
  match select_file_options w picked st with
  | (Next _, st') => import_preview_data w st'
  | (Returned, st') => (Next tt, st')
  | (Raised e, st') => (Raised e, st')
  end.
Proof.
  unfold select_file, call, bind.
  destruct (select_file_options w picked st) as [[[]| |e] st']; [|done..].
  rewrite import_preview_data_unfold.
  destruct (load_selected_file w st') as [[df| |e] st'']; [|done..].
  by rewrite show_table_spec.
Qed.

Lemma file_kind_tests path :
  match file_kind path with
  | CSV => endswith path ".csv" = true
  | EXCEL => endswith path ".csv" = false /\ endswith path ".xlsx" = true
  | SPSS => endswith path ".csv" = false /\ endswith path ".xlsx" = false
            /\ endswith path ".sav" = true
  | UNKNOWN => endswith path ".csv" = false /\ endswith path ".xlsx" = false
               /\ endswith path ".sav" = false
  end.
Proof.
  unfold file_kind.
  by destruct (endswith path ".csv"), (endswith path ".xlsx"), (endswith path ".sav").
Qed.

(** A refresh never lets an exception out once a file was picked: every
    parser call sits in a [try]. *)
Lemma import_preview_data_no_exception w st :
  filepath st <> None -> fst (import_preview_data w st) = Next tt.
Proof.
  intros Hp. rewrite import_preview_data_unfold.
  destruct (load_selected_file_cases w st) as [[df ->]|[->|[->| H]]];
    [by rewrite show_table_spec|done|done|].
  exfalso. revert H. py_unfold.
  destruct (filepath st) as [path|]; [|done].
  repeat (case_match; simplify_eq/=); done.
Qed.

(** In [__select_file] the sheet names are read outside any [try]. *)
Lemma select_file_workbook_raises w picked st e :
  file_kind picked = EXCEL ->
  ExcelFile_sheet_names w picked = Throw e ->
  fst (select_file w picked st) = Raised e.
Proof.
  intros Hk He. pose proof (file_kind_tests picked) as Ht. rewrite Hk in Ht.
  destruct Ht as [Hc Hx].
  assert (String.eqb picked "" = false) as Hne.
  { apply String.eqb_neq. intros ->. discriminate. }
  rewrite select_file_unfold.
  unfold select_file_options, bind, modify, self_filepath, eval, raise.
  rewrite Hne. cbn. by rewrite Hc, Hx, He.
Qed.

(** ** Picking a file *)

(** C7. When the picker is cancelled (it returns the empty string),
    [__select_file] returns at once: the popup is exactly as it was, file
    path, options frame, preview and all, and no error was shown. *)
Theorem select_file_cancelled w st : select_file w "" st = (Next tt, st).
Proof. reflexivity. Qed.

(** The earlier copy had no such guard: a cancelled picker stored the empty
    path and took the options frame off the screen. *)
Lemma legacy_select_file_cancelled_moves :
  snd (Legacy.select_file unreadable "" sales_open) <> sales_open.
Proof. vm_compute. discriminate. Qed.

(** A file of no supported kind: the path is stored, the frame is taken off
    the screen, the error is shown, and [__select_file] returns. *)
Lemma select_file_unknown w picked st :
  picked <> "" -> file_kind picked = UNKNOWN ->
  select_file w picked st =
  (Next tt,
   set_errors (unsupported_msg :: errors st)
     (set_import_options_frame (forget <$> import_options_frame st)
        (set_filepath (Some picked) st))).
Proof.
  intros Hne Hk. by rewrite select_file_unfold, select_file_options_unknown.
Qed.

(** C1, as the code has it. When the file picked is of no supported kind,
    [__select_file] shows the error about the file types and returns; the
    preview, the import button, the table to return and the check button
    stay as they were. The file path however is already the one just
    picked, and the options frame that was there is taken off the screen
    (it stays referenced, with its entries). *)
Theorem select_file_unsupported_type w picked st :
  picked <> "" -> file_kind picked = UNKNOWN ->
  exists st',
    select_file w picked st = (Next tt, st')
    /\ errors st' = unsupported_msg :: errors st
    /\ preview_tableview st' = preview_tableview st
    /\ import_btn st' = import_btn st
    /\ data_frame st' = data_frame st
    /\ show_preview st' = show_preview st
    /\ filepath st' = Some picked
    /\ import_options_frame st' = forget <$> import_options_frame st.
Proof.
  intros Hne Hk. rewrite select_file_unknown by done.
  eexists. split; [reflexivity|]. by cbn.
Qed.

Lemma select_file_unsupported_type_witness :
  "/tmp/notes.txt" <> "" /\ file_kind "/tmp/notes.txt" = UNKNOWN /\
  exists st',
    select_file unreadable "/tmp/notes.txt" sales_open = (Next tt, st')
    /\ errors st' = unsupported_msg :: errors sales_open
    /\ preview_tableview st' = preview_tableview sales_open
    /\ import_btn st' = import_btn sales_open
    /\ data_frame st' = data_frame sales_open
    /\ show_preview st' = show_preview sales_open
    /\ filepath st' = Some "/tmp/notes.txt"
    /\ import_options_frame st' = forget <$> import_options_frame sales_open.
Proof.
  split; [discriminate|]. split; [reflexivity|].
  apply (select_file_unsupported_type unreadable "/tmp/notes.txt" sales_open);
    [discriminate|reflexivity].
Defined.

(** C1, as the claim has it, fails: with [/tmp/sales_Q1.csv] open, picking
    [/tmp/notes.txt] shows the error, but the stored path and the options
    frame are no longer what they were. *)
Lemma select_file_unsupported_type_moves_selection :
  file_kind "/tmp/notes.txt" = UNKNOWN
  /\ errors (snd (select_file unreadable "/tmp/notes.txt" sales_open)) = [unsupported_msg]
  /\ filepath (snd (select_file unreadable "/tmp/notes.txt" sales_open))
     <> filepath sales_open
  /\ import_options_frame (snd (select_file unreadable "/tmp/notes.txt" sales_open))
     <> import_options_frame sales_open
  /\ ~ keeps_selection sales_open (snd (select_file unreadable "/tmp/notes.txt" sales_open)).
Proof.
  split_and!; [reflexivity|reflexivity|vm_compute; discriminate|vm_compute; discriminate|].
  intros (H & _). vm_compute in H. discriminate.
Qed.

(** C2, at the failing input. With [/tmp/sales_Q1.csv] open, picking a file
    [/tmp/bad.xlsx] that pandas cannot open as a workbook: the exception of
    [pd.ExcelFile] leaves [__select_file], which by then has stored the new
    path and taken the options frame off the screen. *)
Theorem select_file_bad_workbook_escapes :
  file_kind "/tmp/bad.xlsx" = EXCEL
  /\ fst (select_file unreadable "/tmp/bad.xlsx" sales_open) = Raised ExternalError
  /\ filepath (snd (select_file unreadable "/tmp/bad.xlsx" sales_open))
     = Some "/tmp/bad.xlsx"
  /\ (packed <$> import_options_frame (snd (select_file unreadable "/tmp/bad.xlsx" sales_open)))
     = Some false.
Proof. by vm_compute. Qed.

(** ** Refreshing the preview *)

(** C3, as the code has it. On a workbook, when Tk cannot read the text of
    the skip-rows entry as a number, the refresh shows the message about the
    skip rows and returns; nothing else of the popup changes. When Tk reads
    a number, negative or not, no message is shown by the refresh. *)
Theorem refresh_skiprows_unreadable w st path fr names sheet skip mv :
  filepath st = Some path -> file_kind path = EXCEL ->
  import_options_frame st = Some fr ->
  options fr = ExcelOptionsFrame names sheet skip mv ->
  (raises (IntVar_get w skip) ->
   exists st',
     import_preview_data w st = (Next tt, st')
     /\ errors st' = skiprows_msg :: errors st
     /\ preview_tableview st' = preview_tableview st
     /\ import_btn st' = import_btn st
     /\ commit_available st' = commit_available st
     /\ data_frame st' = data_frame st
     /\ filepath st' = filepath st
     /\ import_options_frame st' = import_options_frame st)
  /\ (forall n, IntVar_get w skip = Ok n ->
      errors (snd (import_preview_data w st)) = errors st).
Proof.
  intros Hp Hk Hf Ho. pose proof (file_kind_tests path) as Ht. rewrite Hk in Ht.
  destruct Ht as [Hc Hx]. rewrite import_preview_data_unfold. split.
  - intros Hr. exists (set_errors (skiprows_msg :: errors st) st).
    split; [|by cbn].
    py_unfold. rewrite Hp. cbn. rewrite Hc, Hx, Hf. cbn. rewrite Ho. cbn.
    by destruct (IntVar_get w skip).
  - intros n Hn.
    destruct (load_selected_file w st) as [[df| |e] st'] eqn:E;
      [rewrite show_table_spec; cbn|cbn..];
      revert E; py_unfold; rewrite Hp; cbn; rewrite Hc, Hx, Hf; cbn; rewrite Ho; cbn;
      rewrite Hn; cbn; repeat (case_match; simplify_eq/=); congruence.
Qed.

Lemma refresh_skiprows_unreadable_witness :
  raises (decimal_getint "abc") /\
  exists st',
    import_preview_data unreadable (handle (TypeInto skiprows_var "abc") book_open)
    = (Next tt, st')
    /\ errors st' = [skiprows_msg]
    /\ preview_tableview st' = preview_tableview book_open
    /\ import_btn st' = import_btn book_open
    /\ commit_available st' = commit_available book_open.
Proof.
  split; [exact I|].
  destruct (refresh_skiprows_unreadable unreadable
              (handle (TypeInto skiprows_var "abc") book_open) "/tmp/book.xlsx"
              {| widget_id := 0;
                 options := ExcelOptionsFrame ["Sheet1"] "Sheet1" "abc" "Default";
                 refresh_btn := true; packed := true |}
              ["Sheet1"] "Sheet1" "abc" "Default"
              eq_refl eq_refl eq_refl eq_refl) as [H _].
  destruct (H I) as (st' & E & He & Hv & Hb & Hc & _).
  exists st'. split_and!; done.
Defined.

(** C3, as the claim has it, fails on a negative value: with [-1] in the
    skip-rows entry Tk reads the number -1, and the refresh shows no
    message, whether pandas then raises or returns a table. *)
Lemma refresh_negative_skiprows_reports_nothing :
  (options <$> import_options_frame (handle (TypeInto skiprows_var "-1") book_open))
  = Some (ExcelOptionsFrame ["Sheet1"] "Sheet1" "-1" "Default")
  /\ decimal_getint "-1" = Ok (-1)%Z
  /\ errors (snd (import_preview_data unreadable
                    (handle (TypeInto skiprows_var "-1") book_open))) = []
  /\ errors (snd (import_preview_data (readable xy_table)
                    (handle (TypeInto skiprows_var "-1") book_open))) = [].
Proof. by vm_compute. Qed.

(** C6. When the parser of the file's kind raises on the call the refresh
    makes, that is with the path and the options that stand in the frame
    (and, on a workbook, the skip-rows entry was read as a number), the
    refresh returns without a word: no message, no table, and the popup,
    with its preview and its import button, is exactly as before. The
    parser may well succeed with other options: a sheet that exists, another
    separator. *)
Theorem refresh_parser_failure_silent w st path :
  filepath st = Some path ->
  (file_kind path = CSV ->
   forall fr sep na,
     import_options_frame st = Some fr ->
     get_separator (options fr) = Ok sep -> get_na_value (options fr) = Ok na ->
     raises (read_csv w path sep na)) ->
  (file_kind path = EXCEL ->
   exists fr n,
     import_options_frame st = Some fr
     /\ get_skiprows (IntVar_get w) (options fr) = Ok n
     /\ forall sheet na,
          get_sheet_name (options fr) = Ok sheet -> get_na_value (options fr) = Ok na ->
          raises (read_excel w path sheet n na)) ->
  (file_kind path = SPSS -> raises (read_spss w path)) ->
  import_preview_data w st = (Next tt, st).
Proof.
  intros Hp Hcsv Hxl Hsav. pose proof (file_kind_tests path) as Ht.
  rewrite import_preview_data_unfold.
  assert (load_selected_file w st = (Returned, st)) as ->; [|done].
  unfold load_selected_file, try_except, bind, frame_call, self_filepath, eval,
    ret, raise, return_, show_error, modify.
  rewrite Hp. destruct (file_kind path).
  - rewrite Ht. specialize (Hcsv eq_refl).
    destruct (import_options_frame st) as [fr|] eqn:Hf; [|done].
    destruct (get_separator (options fr)) as [sep|] eqn:Hsep; [|done].
    rewrite Hf.
    destruct (get_na_value (options fr)) as [na|] eqn:Hna; [|done].
    specialize (Hcsv fr sep na eq_refl Hsep Hna). by destruct (read_csv w path sep na).
  - destruct Ht as [-> ->]. destruct (Hxl eq_refl) as (fr & n & Hf & Hn & Hr).
    rewrite Hf, Hn. cbn. rewrite Hf.
    destruct (get_sheet_name (options fr)) as [sheet|] eqn:Hsheet; [|done].
    rewrite Hf, Hn. cbn. rewrite Hf.
    destruct (get_na_value (options fr)) as [na|] eqn:Hna; [|done].
    specialize (Hr sheet na eq_refl eq_refl). by destruct (read_excel w path sheet n na).
  - destruct Ht as (-> & -> & ->). specialize (Hsav eq_refl).
    by destruct (read_spss w path).
  - by destruct Ht as (-> & -> & ->).
Qed.

(** The sheet box holds a name the workbook does not have: [read_excel]
    raises for it, though it would read the sheet that exists. *)
Lemma refresh_parser_failure_silent_witness :
  read_excel (one_sheet xy_table) "/tmp/book.xlsx" "Sheet1" 0 None = Ok xy_table
  /\ import_preview_data (one_sheet xy_table)
       (handle (TypeInto sheet_var "Nope") book_open)
     = (Next tt, handle (TypeInto sheet_var "Nope") book_open).
Proof.
  split; [reflexivity|].
  apply (refresh_parser_failure_silent (one_sheet xy_table)
           (handle (TypeInto sheet_var "Nope") book_open) "/tmp/book.xlsx").
  - reflexivity.
  - discriminate.
  - intros _.
    exists {| widget_id := 0;
              options := ExcelOptionsFrame ["Sheet1"] "Nope" "0" "Default";
              refresh_btn := true; packed := true |}, 0%Z.
    split; [reflexivity|]. split; [reflexivity|].
    intros sheet na [= <-] _. exact I.
  - discriminate.
Defined.

(** ** The name of the result *)


Lemma dot_char_eq ch : dot_char ch = true -> ch = ".".
Proof. apply String.eqb_eq. Qed.

Lemma in_class_not_dot ch : in_class ch = true -> dot_char ch = false.
Proof.
  intros H. destruct (dot_char ch) eqn:E; [|done].
  apply dot_char_eq in E as ->. vm_compute in H. discriminate.
Qed.

Lemma search_unfold cs :
  search cs =
  match match_here cs with
  | Some m => Some m
  | None => match cs with
            | [] => None
            | _ :: rest => search rest
            end
  end.
Proof. by destruct cs. Qed.

Lemma match_here_cons c d rest :
  match_here (c :: d :: rest) =
  if in_class c then
    if dot_char d then Some [c]
    else cons c <$> match_here (d :: rest)
  else None.
Proof. reflexivity. Qed.

Lemma match_here_outside c rest : in_class c = false -> match_here (c :: rest) = None.
Proof. intros H. cbn. by rewrite H. Qed.



(** The lazy repetition stops at the first dot after a run of the class. *)
Lemma match_here_run m rest :
  m <> [] -> forallb in_class m = true ->
  match_here (m ++ "." :: rest) = Some m.
Proof.
  induction m as [|c m IH]; [done|]. intros _ [Hc Hm]%andb_prop.
  destruct m as [|d m].
  - cbn [app]. by rewrite match_here_cons, Hc.
  - cbn [app] in *. rewrite match_here_cons, Hc.
    pose proof Hm as [Hd _]%andb_prop. rewrite (in_class_not_dot d Hd).
    by rewrite IH.
Qed.

























(** ** The import button *)

Lemma select_file_options_frame_rule w picked st :
  import_btn (snd (select_file_options w picked st)) = import_btn st
  /\ data_frame (snd (select_file_options w picked st)) = data_frame st
  /\ preview_tableview (snd (select_file_options w picked st)) = preview_tableview st.
Proof.
  unfold select_file_options, bind, modify, self_filepath, show_error, return_,
    new_widget, eval, ret, raise, new_ExcelOptionsFrame.
  destruct (String.eqb picked ""); cbn; [done|].
  repeat (case_match; simplify_eq/=); done.
Qed.

Lemma load_selected_file_frame_rule w st :
  import_btn (snd (load_selected_file w st)) = import_btn st
  /\ data_frame (snd (load_selected_file w st)) = data_frame st
  /\ preview_tableview (snd (load_selected_file w st)) = preview_tableview st.
Proof.
  by destruct (load_selected_file_cases w st) as [[df ->]|[->|[->| ->]]].
Qed.

Lemma import_preview_data_button w st :
  command <$> import_btn (snd (import_preview_data w st)) =
  match parsed w st with
  | Some df => Some df
  | None => command <$> import_btn st
  end.
Proof.
  rewrite import_preview_data_unfold. unfold parsed.
  destruct (load_selected_file_cases w st) as [[df ->]|[->|[->| ->]]];
    by rewrite ?show_table_spec.
Qed.

(** A press of a button rebinds the import button exactly when its refresh
    parsed a table. *)
Lemma handle_button e st :
  command <$> import_btn (handle e st) =
  match parsed_by e st with
  | Some df => Some df
  | None => command <$> import_btn st
  end.
Proof.
  destruct e as [w picked|w| |v text]; cbn [handle parsed_by]; [| |done..].
  - rewrite select_file_unfold.
    pose proof (select_file_options_frame_rule w picked st) as (Hb & _).
    destruct (select_file_options w picked st) as [[[]| |e] st1]; cbn in Hb |- *;
      [|by rewrite Hb..].
    by rewrite import_preview_data_button, Hb.
  - apply import_preview_data_button.
Qed.

Lemma run_cons e evs st : run (e :: evs) st = run evs (handle e st).
Proof. reflexivity. Qed.

Lemma run_button evs st :
  command <$> import_btn (run evs st) =
  match last_parsed evs st with
  | Some df => Some df
  | None => command <$> import_btn st
  end.
Proof.
  revert st. induction evs as [|e evs IH]; intros st; [done|].
  rewrite run_cons, IH. cbn [last_parsed].
  destruct (last_parsed evs (handle e st)); [done|]. apply handle_button.
Qed.

(** C5. After any sequence of presses (refreshes, file selections, edits of
    the options, toggles) in which some refresh parsed a table, the import
    button is bound to the table of the most recent such refresh, and
    pressing it makes [show] return exactly that table. *)
Theorem commit_returns_last_parsed evs st df :
  last_parsed evs st = Some df ->
  (command <$> import_btn (run evs st)) = Some df
  /\ data_frame (click_import (run evs st)) = Some df
  /\ show_result (click_import (run evs st)) = PyDict (Some df) (filename (run evs st))
  /\ (commit_available (run evs st) = true ->
      show evs ClickImport st = PyDict (Some df) (filename (run evs st))).
Proof.
  intros Hl. pose proof (run_button evs st) as Hb. rewrite Hl in Hb.
  unfold show, wait_window, click_import.
  destruct (import_btn (run evs st)) as [b|]; [|done].
  injection Hb as <-. split_and!; [done..|]. by intros ->.
Qed.

Lemma commit_returns_last_parsed_witness :
  last_parsed [ClickRefresh (readable xy_table); ClickRefresh unreadable] sales_open
  = Some xy_table
  /\ show [ClickRefresh (readable xy_table); ClickRefresh unreadable] ClickImport sales_open
     = PyDict (Some xy_table) (Some "sales_Q1").
Proof.
  split; [reflexivity|].
  destruct (commit_returns_last_parsed
              [ClickRefresh (readable xy_table); ClickRefresh unreadable]
              sales_open xy_table eq_refl) as (_ & _ & _ & H).
  exact (H eq_refl).
Defined.

(** ** Closing the window *)

Lemma handle_data_frame e st : data_frame (handle e st) = data_frame st.
Proof.
  destruct e as [w picked|w| |v text]; cbn [handle]; [| |done..].
  - rewrite select_file_unfold.
    pose proof (select_file_options_frame_rule w picked st) as (_ & Hd & _).
    destruct (select_file_options w picked st) as [[[]| |e] st1]; cbn in Hd |- *;
      [|done..].
    rewrite import_preview_data_unfold, <- Hd.
    destruct (load_selected_file_cases w st1) as [[df ->]|[->|[->| ->]]];
      by rewrite ?show_table_spec.
  - rewrite import_preview_data_unfold.
    destruct (load_selected_file_cases w st) as [[df ->]|[->|[->| ->]]];
      by rewrite ?show_table_spec.
Qed.

Lemma run_data_frame evs st : data_frame (run evs st) = data_frame st.
Proof.
  revert st. induction evs as [|e evs IH]; intros st; [done|].
  by rewrite run_cons, IH, handle_data_frame.
Qed.

(** Whatever was done before, closing the window makes the current [show]
    return a dict whose table is [None]; it is never [None] itself. *)
Lemma close_window_returns_dict evs :
  import_data evs CloseWindow = PyDict None (filename (run evs new_DataImportPopup)).
Proof.
  unfold import_data, show, wait_window, show_result, filename. cbn.
  by rewrite run_data_frame.
Qed.

(** The host shows a new table only for a table. *)
Lemma open_import_window_tableview result app :
  Main.tableview (snd (Main.open_import_window result app)) =
  match result with
  | PyDataFrame df => build_table_data (columns df) (values df)
  | _ => Main.tableview app
  end.
Proof. by destruct result. Qed.

(** With the earlier copy the same gesture gives [None], which is what the
    host tests for. *)
Lemma legacy_load_selected_file_cases w st :
  (exists df, Legacy.load_selected_file w st = (Next df, st))
  \/ Legacy.load_selected_file w st = (Returned, st)
  \/ Legacy.load_selected_file w st = (Raised AttributeError, st).
Proof.
  py_unfold. destruct st as [df0 [path|] shown [[id opts rb pk]|] tv btn n errs d]; cbn;
    repeat (case_match; simplify_eq/=); eauto 6.
Qed.

Lemma legacy_import_preview_data_data_frame w st :
  data_frame (snd (Legacy.import_preview_data w st)) = data_frame st.
Proof.
  unfold Legacy.import_preview_data, call, bind.
  destruct (legacy_load_selected_file_cases w st) as [[df ->]|[->| ->]];
    by rewrite ?show_table_spec.
Qed.

Lemma legacy_handle_data_frame e st : data_frame (Legacy.handle e st) = data_frame st.
Proof.
  destruct e as [w picked|w| |v text]; cbn [Legacy.handle];
    [|apply legacy_import_preview_data_data_frame|done..].
  unfold Legacy.select_file, call, bind, modify, self_filepath, new_widget, eval, ret,
    raise, new_ExcelOptionsFrame. cbn [filepath set_filepath set_import_options_frame].
  repeat (case_match; simplify_eq/=);
    repeat match goal with
      | H : Legacy.import_preview_data ?w' ?s = _ |- _ =>
          pose proof (legacy_import_preview_data_data_frame w' s) as Hd;
          rewrite H in Hd; clear H
      end; done.
Qed.

Lemma legacy_close_window_returns_none evs :
  Legacy.import_data evs CloseWindow = PyNone.
Proof.
  unfold Legacy.import_data, Legacy.show, Legacy.wait_window, Legacy.show_result. cbn.
  assert (forall st, data_frame (Legacy.run evs st) = data_frame st) as ->; [|done].
  induction evs as [|e evs IH]; intros st; [done|].
  unfold Legacy.run in *. cbn. by rewrite IH, legacy_handle_data_frame.
Qed.

(** C8, at the failing input. The user opens the popup and closes it at
    once. [import_data] returns the dict [{data_frame: None, data_name:
    None}], not [None]; the host's test [is not None] passes and the read of
    [.columns] on the dict raises. After a commit the host gets a dict as
    well, and raises as well. With the earlier [show], which returns
    [self.data_frame], the host gets [None] and leaves its table alone. *)
Theorem close_without_commit_returns_dict :
  import_data [] CloseWindow = PyDict None None
  /\ import_data [] CloseWindow <> PyNone
  /\ Main.open_import_window (import_data [] CloseWindow) Main.new_DataImportApp
     = (Raised AttributeError, Main.new_DataImportApp)
  /\ Main.open_import_window
       (import_data [ClickSelectFile (readable ab_table) "/tmp/sales_Q1.csv"] ClickImport)
       Main.new_DataImportApp
     = (Raised AttributeError, Main.new_DataImportApp)
  /\ Legacy.import_data [] CloseWindow = PyNone
  /\ Main.open_import_window (Legacy.import_data [] CloseWindow) Main.new_DataImportApp
     = (Next tt, Main.new_DataImportApp).
Proof. by vm_compute. Qed.

(** ** The check button *)

(** C9. Toggling the check button writes its variable and nothing else: the
    table bound to the import button, the table to return and the preview
    on screen are untouched; and toggling it off and on again gives back
    the popup as it was, with the same preview. *)
Theorem toggle_show_preview_only st :
  show_preview st = 1%Z ->
  import_btn (handle ToggleShowPreview st) = import_btn st
  /\ data_frame (handle ToggleShowPreview st) = data_frame st
  /\ preview_tableview (handle ToggleShowPreview st) = preview_tableview st
  /\ show_preview (handle ToggleShowPreview st) = 0%Z
  /\ run [ToggleShowPreview; ToggleShowPreview] st = st
  /\ preview_tableview (run [ToggleShowPreview; ToggleShowPreview] st)
     = preview_tableview st.
Proof.
  intros H. destruct st. cbn in H. subst.
  by unfold run, handle, toggle_show_preview, set_show_preview.
Qed.

Lemma toggle_show_preview_only_witness :
  run [ToggleShowPreview; ToggleShowPreview] sales_open = sales_open
  /\ preview_tableview (handle ToggleShowPreview sales_open)
     = {| coldata := ["a"; "b"]; rowdata := [[CInt 1; CInt 2]] |}.
Proof.
  destruct (toggle_show_preview_only sales_open eq_refl) as (_ & _ & Hv & _ & Hr & _).
  split; [exact Hr|exact Hv].
Defined.

(** ** The kind of a file *)

(** C10. The kind is read off the end of the whole path, letter case and
    all: csv exactly when the path ends in [.csv], and so for [.xlsx] and
    [.sav]; a path ending in [.CSV], [.Csv], [.XLSX] or [.SAV] is of no kind
    and picking it shows the error; [archive.tar.csv] is a csv file and
    picking it builds the csv options. *)
Theorem file_kind_is_suffix_test :
  (forall path, file_kind path = CSV <-> exists pre, path = pre +:+ ".csv")
  /\ (forall path, file_kind path = EXCEL <-> exists pre, path = pre +:+ ".xlsx")
  /\ (forall path, file_kind path = SPSS <-> exists pre, path = pre +:+ ".sav")
  /\ (forall pre, file_kind (pre +:+ ".CSV") = UNKNOWN)
  /\ (forall pre, file_kind (pre +:+ ".Csv") = UNKNOWN)
  /\ (forall pre, file_kind (pre +:+ ".XLSX") = UNKNOWN)
  /\ (forall pre, file_kind (pre +:+ ".SAV") = UNKNOWN)
  /\ (forall w pre st,
        exists st', select_file w (pre +:+ ".CSV") st = (Next tt, st')
                    /\ errors st' = unsupported_msg :: errors st)
  /\ file_kind "archive.tar.csv" = CSV
  /\ (forall w st,
        (options <$> import_options_frame (snd (select_file w "archive.tar.csv" st)))
        = Some new_CSVOptionsFrame).
Proof.
  split_and!.
  - apply file_kind_csv.
  - apply file_kind_excel.
  - apply file_kind_spss.
  - intros pre. by apply file_kind_other_suffix.
  - intros pre. by apply file_kind_other_suffix.
  - intros pre. unfold file_kind.
    rewrite (endswith_append pre ".XLSX" ".csv"), (endswith_append pre ".XLSX" ".xlsx"),
      (endswith_append pre ".XLSX" ".sav") by (cbn; lia).
    reflexivity.
  - intros pre. by apply file_kind_other_suffix.
  - intros w pre st.
    rewrite select_file_unknown.
    + by eexists.
    + by apply append_not_empty.
    + by apply file_kind_other_suffix.
  - reflexivity.
  - intros w st. rewrite select_file_unfold. cbn.
    rewrite import_preview_data_unfold.
    match goal with
    | |- context [load_selected_file w ?s] =>
        destruct (load_selected_file_cases w s) as [[df ->]|[->|[->| ->]]]
    end; [by rewrite show_table_spec|done..].
Qed.

(** * Further properties of the code *)

(** ** A refresh that parses *)

(** What the popup is after a refresh whose first half parsed [df]. *)
Lemma refresh_parsed_state w st fr df :
  load_selected_file w st = (Next df, st) ->
  import_options_frame st = Some fr ->
  exists st',
    import_preview_data w st = (Next tt, st')
    /\ preview_tableview st'
       = (if Z.eqb (show_preview st) 1
          then build_table_data (columns df) (values df)
          else build_table_data [] [])
    /\ import_btn st'
       = Some {| master := Some (widget_id fr); command := df; btn_packed := true |}
    /\ commit_available st' = packed fr
    /\ filepath st' = filepath st
    /\ import_options_frame st' = import_options_frame st
    /\ errors st' = errors st
    /\ data_frame st' = data_frame st.
Proof.
  intros Hl Hf. rewrite import_preview_data_unfold, Hl, show_table_spec.
  eexists. split; [reflexivity|]. unfold commit_available. cbn. rewrite Hf. cbn.
  by rewrite Nat.eqb_refl, andb_true_r.
Qed.

Lemma load_csv_parsed w st path fr sep mv s df :
  filepath st = Some path -> file_kind path = CSV ->
  import_options_frame st = Some fr -> options fr = CSVOptionsFrame sep mv ->
  separator_options !! sep = Some s ->
  read_csv w path s (if String.eqb mv "Default" then None else Some mv) = Ok df ->
  load_selected_file w st = (Next df, st).
Proof.
  intros Hp Hk Hf Ho Hs Hr. pose proof (file_kind_tests path) as Ht. rewrite Hk in Ht.
  unfold load_selected_file, try_except, bind, frame_call, self_filepath, eval,
    ret, raise, return_, get_separator, get_na_value, na_of.
  rewrite Hp, Ht, Hf, Ho, Hs. cbn. rewrite Hf, Ho. cbn. by rewrite Hr.
Qed.

Lemma load_excel_parsed w st path fr names sheet skip mv n df :
  filepath st = Some path -> file_kind path = EXCEL ->
  import_options_frame st = Some fr ->
  options fr = ExcelOptionsFrame names sheet skip mv ->
  IntVar_get w skip = Ok n ->
  read_excel w path sheet n (if String.eqb mv "Default" then None else Some mv) = Ok df ->
  load_selected_file w st = (Next df, st).
Proof.
  intros Hp Hk Hf Ho Hn Hr. pose proof (file_kind_tests path) as Ht. rewrite Hk in Ht.
  destruct Ht as [Hc Hx].
  unfold load_selected_file, try_except, bind, frame_call, self_filepath, eval,
    ret, raise, return_, get_skiprows, get_sheet_name, get_na_value, na_of.
  rewrite Hp, Hc, Hx, Hf, Ho, Hn. cbn. rewrite Hf, Ho. cbn.
  rewrite Hf, Ho, Hn. cbn. rewrite Hf, Ho. cbn. by rewrite Hr.
Qed.

(** X1. On a csv path with the csv options on it, when the text of the
    separator box is a key of [separator_options] and [read_csv], called
    with the path, the character under that key and the missing-values text
    ([None] for [Default]), returns a table, the refresh shows that table
    (or an empty one when the check button is off) and binds a new import
    button in the options frame to it; path, options, messages and the
    table to return stay. *)
Theorem refresh_csv_shows_table w st path fr sep mv s df :
  filepath st = Some path -> file_kind path = CSV ->
  import_options_frame st = Some fr -> options fr = CSVOptionsFrame sep mv ->
  separator_options !! sep = Some s ->
  read_csv w path s (if String.eqb mv "Default" then None else Some mv) = Ok df ->
  exists st',
    import_preview_data w st = (Next tt, st')
    /\ preview_tableview st'
       = (if Z.eqb (show_preview st) 1
          then build_table_data (columns df) (values df)
          else build_table_data [] [])
    /\ import_btn st'
       = Some {| master := Some (widget_id fr); command := df; btn_packed := true |}
    /\ commit_available st' = packed fr
    /\ filepath st' = filepath st
    /\ import_options_frame st' = import_options_frame st
    /\ errors st' = errors st
    /\ data_frame st' = data_frame st.
Proof.
  intros Hp Hk Hf Ho Hs Hr.
  apply refresh_parsed_state; [|exact Hf]. by eapply load_csv_parsed.
Qed.

Lemma refresh_csv_shows_table_witness :
  exists st',
    import_preview_data (readable xy_table) sales_semicolon = (Next tt, st')
    /\ preview_tableview st' = build_table_data (columns xy_table) (values xy_table)
    /\ commit_available st' = true.
Proof.
  destruct (refresh_csv_shows_table (readable xy_table) sales_semicolon
              "/tmp/sales_Q1.csv"
              {| widget_id := 0; options := CSVOptionsFrame ";" "Default";
                 refresh_btn := true; packed := true |}
              ";" "Default" ";" xy_table
              eq_refl eq_refl eq_refl eq_refl eq_refl eq_refl)
    as (st' & E & Hv & _ & Hc & _).
  exists st'. split_and!; [exact E|exact Hv|exact Hc].
Defined.

(** X2. On a workbook with the workbook options on it, when Tk reads the
    skip-rows text as the number [n] and [read_excel], called with the
    path, the sheet text as it stands, [n] and the missing-values text,
    returns a table, the refresh shows and binds that table in the same
    way, and shows no message. *)
Theorem refresh_excel_shows_table w st path fr names sheet skip mv n df :
  filepath st = Some path -> file_kind path = EXCEL ->
  import_options_frame st = Some fr ->
  options fr = ExcelOptionsFrame names sheet skip mv ->
  IntVar_get w skip = Ok n ->
  read_excel w path sheet n (if String.eqb mv "Default" then None else Some mv) = Ok df ->
  exists st',
    import_preview_data w st = (Next tt, st')
    /\ preview_tableview st'
       = (if Z.eqb (show_preview st) 1
          then build_table_data (columns df) (values df)
          else build_table_data [] [])
    /\ import_btn st'
       = Some {| master := Some (widget_id fr); command := df; btn_packed := true |}
    /\ commit_available st' = packed fr
    /\ filepath st' = filepath st
    /\ import_options_frame st' = import_options_frame st
    /\ errors st' = errors st
    /\ data_frame st' = data_frame st.
Proof.
  intros Hp Hk Hf Ho Hn Hr.
  apply refresh_parsed_state; [|exact Hf]. by eapply load_excel_parsed.
Qed.

Lemma refresh_excel_shows_table_witness :
  exists st',
    import_preview_data (readable xy_table)
      (handle (TypeInto skiprows_var "2") book_open) = (Next tt, st')
    /\ preview_tableview st' = build_table_data (columns xy_table) (values xy_table)
    /\ errors st' = [].
Proof.
  destruct (refresh_excel_shows_table (readable xy_table)
              (handle (TypeInto skiprows_var "2") book_open) "/tmp/book.xlsx"
              {| widget_id := 0;
                 options := ExcelOptionsFrame ["Sheet1"] "Sheet1" "2" "Default";
                 refresh_btn := true; packed := true |}
              ["Sheet1"] "Sheet1" "2" "Default" 2%Z xy_table
              eq_refl eq_refl eq_refl eq_refl eq_refl eq_refl)
    as (st' & E & Hv & _ & _ & _ & _ & He & _).
  exists st'. split_and!; [exact E|exact Hv|exact He].
Defined.

(** X3. On a sav path the refresh does not look at the options frame at
    all: whatever frame is there, or none, when [read_spss] returns a table
    that table is shown and bound. *)
Theorem refresh_spss_ignores_options w st path df :
  filepath st = Some path -> file_kind path = SPSS ->
  read_spss w path = Ok df ->
  exists st',
    import_preview_data w st = (Next tt, st')
    /\ preview_tableview st'
       = (if Z.eqb (show_preview st) 1
          then build_table_data (columns df) (values df)
          else build_table_data [] [])
    /\ (command <$> import_btn st') = Some df
    /\ filepath st' = filepath st
    /\ import_options_frame st' = import_options_frame st
    /\ errors st' = errors st.
Proof.
  intros Hp Hk Hr. pose proof (file_kind_tests path) as Ht. rewrite Hk in Ht.
  destruct Ht as (Hc & Hx & Hs). rewrite import_preview_data_unfold.
  assert (load_selected_file w st = (Next df, st)) as ->.
  { unfold load_selected_file, try_except, bind, self_filepath, eval, ret.
    by rewrite Hp, Hc, Hx, Hs, Hr. }
  rewrite show_table_spec. eexists. split; [reflexivity|]. by split_and!.
Qed.

Lemma refresh_spss_ignores_options_witness :
  exists st',
    import_preview_data (readable xy_table)
      (set_import_options_frame None
         (set_filepath (Some "/tmp/survey.sav") new_DataImportPopup)) = (Next tt, st')
    /\ (command <$> import_btn st') = Some xy_table.
Proof.
  destruct (refresh_spss_ignores_options (readable xy_table)
              (set_import_options_frame None
                 (set_filepath (Some "/tmp/survey.sav") new_DataImportPopup))
              "/tmp/survey.sav" xy_table eq_refl eq_refl eq_refl)
    as (st' & E & _ & Hb & _).
  exists st'. by split.
Defined.

(** ** The separator box *)

Lemma separator_options_missing sep :
  sep <> "," -> sep <> ";" -> sep <> "Space" -> sep <> "Tab" ->
  separator_options !! sep = None.
Proof.
  intros. unfold separator_options.
  rewrite !lookup_insert_ne by done. by apply lookup_singleton_ne.
Qed.

(** X4. The separator box takes any text, but only the four keys are in
    the dict: with any other text in it (the character of a tab, [|], the
    empty text), the lookup raises inside the [try] and the refresh of a csv
    file does nothing at all, whatever [read_csv] would have returned. *)
Theorem refresh_csv_unknown_separator w st path fr sep mv :
  filepath st = Some path -> file_kind path = CSV ->
  import_options_frame st = Some fr -> options fr = CSVOptionsFrame sep mv ->
  sep <> "," -> sep <> ";" -> sep <> "Space" -> sep <> "Tab" ->
  import_preview_data w st = (Next tt, st).
Proof.
  intros Hp Hk Hf Ho H1 H2 H3 H4. pose proof (file_kind_tests path) as Ht.
  rewrite Hk in Ht. rewrite import_preview_data_unfold.
  assert (load_selected_file w st = (Returned, st)) as ->; [|done].
  unfold load_selected_file, try_except, bind, frame_call, self_filepath, eval,
    ret, raise, return_, get_separator.
  rewrite Hp, Ht, Hf, Ho. by rewrite separator_options_missing.
Qed.

Lemma refresh_csv_unknown_separator_witness :
  import_preview_data (readable xy_table) (handle (TypeInto separator_var "|") sales_open)
  = (Next tt, handle (TypeInto separator_var "|") sales_open).
Proof.
  apply (refresh_csv_unknown_separator (readable xy_table)
           (handle (TypeInto separator_var "|") sales_open) "/tmp/sales_Q1.csv"
           {| widget_id := 0; options := CSVOptionsFrame "|" "Default";
              refresh_btn := true; packed := true |} "|" "Default");
    (reflexivity || discriminate).
Defined.

(** ** Picking a file, case by case *)

Lemma import_preview_data_cases w st :
  import_preview_data w st = (Next tt, st)
  \/ import_preview_data w st = (Next tt, set_errors (skiprows_msg :: errors st) st)
  \/ (exists df, load_selected_file w st = (Next df, st)
                 /\ import_preview_data w st = show_table df st)
  \/ import_preview_data w st = (Raised AttributeError, st).
Proof.
  rewrite import_preview_data_unfold.
  destruct (load_selected_file_cases w st) as [[df E]|[E|[E|E]]]; rewrite E; eauto 6.
Qed.

Lemma import_preview_data_keeps w st :
  filepath (snd (import_preview_data w st)) = filepath st
  /\ import_options_frame (snd (import_preview_data w st)) = import_options_frame st
  /\ data_frame (snd (import_preview_data w st)) = data_frame st
  /\ show_preview (snd (import_preview_data w st)) = show_preview st.
Proof.
  destruct (import_preview_data_cases w st) as [->|[->|[(df & _ & ->)| ->]]];
    by rewrite ?show_table_spec.
Qed.

(** The popup once the path is stored and the frame that was there is off
    the screen. *)
Lemma select_file_options_cases w picked st :
  picked <> "" ->
  select_file_options w picked st =
  match file_kind picked with
  | CSV =>
      (Next tt,
       set_import_options_frame
         (Some {| widget_id := widgets st; options := CSVOptionsFrame "," "Default";
                  refresh_btn := true; packed := true |})
         (set_widgets (S (widgets st))
            (set_import_options_frame (forget <$> import_options_frame st)
               (set_filepath (Some picked) st))))
  | EXCEL =>
      match ExcelFile_sheet_names w picked with
      | Throw e =>
          (Raised e,
           set_import_options_frame (forget <$> import_options_frame st)
             (set_filepath (Some picked) st))
      | Ok [] =>
          (Raised IndexError,
           set_widgets (S (widgets st))
             (set_import_options_frame (forget <$> import_options_frame st)
                (set_filepath (Some picked) st)))
      | Ok (first :: others) =>
          (Next tt,
           set_import_options_frame
             (Some {| widget_id := widgets st;
                      options := ExcelOptionsFrame (first :: others) first "0" "Default";
                      refresh_btn := true; packed := true |})
             (set_widgets (S (widgets st))
                (set_import_options_frame (forget <$> import_options_frame st)
                   (set_filepath (Some picked) st))))
      end
  | SPSS =>
      (Next tt,
       set_import_options_frame
         (Some {| widget_id := widgets st; options := SPSSOptionsFrame;
                  refresh_btn := false; packed := true |})
         (set_widgets (S (widgets st))
            (set_import_options_frame (forget <$> import_options_frame st)
               (set_filepath (Some picked) st))))
  | UNKNOWN =>
      (Returned,
       set_errors (unsupported_msg :: errors st)
         (set_import_options_frame (forget <$> import_options_frame st)
            (set_filepath (Some picked) st)))
  end.
Proof.
  intros Hne. apply String.eqb_neq in Hne. pose proof (file_kind_tests picked) as Ht.
  unfold select_file_options, bind, modify, self_filepath, show_error, return_,
    new_widget, eval, ret, raise, new_ExcelOptionsFrame, new_CSVOptionsFrame.
  rewrite Hne. cbn.
  destruct (file_kind picked).
  - by rewrite Ht.
  - destruct Ht as [-> ->]. by destruct (ExcelFile_sheet_names w picked) as [[|n ns]|].
  - by destruct Ht as (-> & -> & ->).
  - by destruct Ht as (-> & -> & ->).
Qed.

Lemma file_kind_known_not_empty picked : file_kind picked <> UNKNOWN -> picked <> "".
Proof. by intros H ->. Qed.

(** X5. Whatever file is picked (any kind, readable or not), the path is
    stored before anything else happens, so the name [show] returns later is
    the one of the file picked last, also when that file was refused or made
    pandas raise. *)
Theorem select_file_stores_path w picked st :
  picked <> "" ->
  filepath (snd (select_file w picked st)) = Some picked
  /\ show_result (snd (select_file w picked st))
     = PyDict (data_frame st) (re_search picked).
Proof.
  intros Hne. unfold show_result, filename. rewrite select_file_unfold.
  rewrite select_file_options_cases by done.
  assert (forall st1, filepath st1 = Some picked -> data_frame st1 = data_frame st ->
            filepath (snd (import_preview_data w st1)) = Some picked
            /\ PyDict (data_frame (snd (import_preview_data w st1)))
                 match filepath (snd (import_preview_data w st1)) with
                 | Some path => re_search path
                 | None => None
                 end = PyDict (data_frame st) (re_search picked)) as Hi.
  { intros st1 Hp Hd. destruct (import_preview_data_keeps w st1) as (-> & _ & -> & _).
    by rewrite Hp, Hd. }
  destruct (file_kind picked); [by apply Hi| |by apply Hi|done].
  destruct (ExcelFile_sheet_names w picked) as [[|n ns]|]; [done|by apply Hi|done].
Qed.

Lemma select_file_stores_path_witness :
  show_result (snd (select_file unreadable "/tmp/notes.txt" sales_open))
  = PyDict None (Some "notes").
Proof.
  destruct (select_file_stores_path unreadable "/tmp/notes.txt" sales_open) as [_ H];
    [discriminate|exact H].
Defined.

(** X6. Picking a file of a supported kind builds the options from
    scratch, in a new frame that is on screen: a comma and [Default] for
    csv, the first sheet, skip rows 0 and [Default] for a workbook with at
    least one sheet, nothing for sav. What stood in the boxes before is not
    carried over. *)
Theorem select_file_fresh_options w picked st :
  file_kind picked <> UNKNOWN ->
  match file_kind picked, ExcelFile_sheet_names w picked with
  | CSV, _ =>
      import_options_frame (snd (select_file w picked st))
      = Some {| widget_id := widgets st; options := CSVOptionsFrame "," "Default";
                refresh_btn := true; packed := true |}
  | EXCEL, Ok (first :: others) =>
      import_options_frame (snd (select_file w picked st))
      = Some {| widget_id := widgets st;
                options := ExcelOptionsFrame (first :: others) first "0" "Default";
                refresh_btn := true; packed := true |}
  | SPSS, _ =>
      import_options_frame (snd (select_file w picked st))
      = Some {| widget_id := widgets st; options := SPSSOptionsFrame;
                refresh_btn := false; packed := true |}
  | _, _ =>
      import_options_frame (snd (select_file w picked st))
      = forget <$> import_options_frame st
  end.
Proof.
  intros Hk. pose proof (file_kind_known_not_empty picked Hk) as Hne.
  rewrite select_file_unfold, select_file_options_cases by done.
  destruct (file_kind picked); [| | |done].
  - destruct (ExcelFile_sheet_names w picked);
      by destruct (import_preview_data_keeps w
        (set_import_options_frame
           (Some {| widget_id := widgets st; options := CSVOptionsFrame "," "Default";
                    refresh_btn := true; packed := true |})
           (set_widgets (S (widgets st))
              (set_import_options_frame (forget <$> import_options_frame st)
                 (set_filepath (Some picked) st))))) as (_ & -> & _).
  - destruct (ExcelFile_sheet_names w picked) as [[|n ns]|]; [done| |done].
    by destruct (import_preview_data_keeps w
        (set_import_options_frame
           (Some {| widget_id := widgets st;
                    options := ExcelOptionsFrame (n :: ns) n "0" "Default";
                    refresh_btn := true; packed := true |})
           (set_widgets (S (widgets st))
              (set_import_options_frame (forget <$> import_options_frame st)
                 (set_filepath (Some picked) st))))) as (_ & -> & _).
  - destruct (ExcelFile_sheet_names w picked);
      by destruct (import_preview_data_keeps w
        (set_import_options_frame
           (Some {| widget_id := widgets st; options := SPSSOptionsFrame;
                    refresh_btn := false; packed := true |})
           (set_widgets (S (widgets st))
              (set_import_options_frame (forget <$> import_options_frame st)
                 (set_filepath (Some picked) st))))) as (_ & -> & _).
Qed.

Lemma select_file_fresh_options_witness :
  import_options_frame
    (snd (select_file (readable ab_table) "/tmp/book.xlsx" sales_semicolon))
  = Some {| widget_id := 2;
            options := ExcelOptionsFrame ["Sheet1"] "Sheet1" "0" "Default";
            refresh_btn := true; packed := true |}.
Proof.
  apply (select_file_fresh_options (readable ab_table) "/tmp/book.xlsx" sales_semicolon).
  discriminate.
Defined.

(** X7. A workbook that pandas cannot open, or that has no sheet: the
    exception leaves [__select_file] ([IndexError] from [sheet_names[0]] in
    the second case). By then the path is stored and the old frame is off
    the screen; no refresh ran, so the preview and the import button are
    those of the file before, and no message was shown. *)
Theorem select_file_workbook_failure w picked st e :
  file_kind picked = EXCEL ->
  ExcelFile_sheet_names w picked = Throw e
  \/ (ExcelFile_sheet_names w picked = Ok [] /\ e = IndexError) ->
  exists st',
    select_file w picked st = (Raised e, st')
    /\ filepath st' = Some picked
    /\ import_options_frame st' = forget <$> import_options_frame st
    /\ preview_tableview st' = preview_tableview st
    /\ import_btn st' = import_btn st
    /\ errors st' = errors st
    /\ commit_available st' = false.
Proof.
  intros Hk Hs. assert (picked <> "") as Hne by (apply file_kind_known_not_empty; congruence).
  rewrite select_file_unfold, select_file_options_cases, Hk by done.
  assert (forall st1, import_options_frame st1 = forget <$> import_options_frame st ->
            commit_available st1 = false) as Hc.
  { intros st1 Hf. unfold commit_available. rewrite Hf.
    destruct (import_btn st1); [|done].
    destruct (import_options_frame st); [|done]. cbn. by rewrite andb_false_r. }
  destruct Hs as [-> |[-> ->]]; (eexists; split; [reflexivity|]);
    (split_and!; [done..|by apply Hc]).
Qed.

Lemma select_file_workbook_failure_witness :
  exists st',
    select_file unreadable "/tmp/bad.xlsx" sales_open = (Raised ExternalError, st')
    /\ commit_available st' = false.
Proof.
  destruct (select_file_workbook_failure unreadable "/tmp/bad.xlsx" sales_open
              ExternalError eq_refl (or_introl eq_refl))
    as (st' & E & _ & _ & _ & _ & _ & Hc).
  by exists st'.
Defined.

(** ** Picking a file that parses *)

Lemma separator_options_comma : separator_options !! "," = Some ",".
Proof. reflexivity. Qed.

(** X8. Picking a csv file reads it at once with the defaults, a comma as
    separator and no missing-values marker: when [read_csv] returns a table
    for these, the path is stored, the table is previewed, the new import
    button is bound to it and is on screen, and no message is shown. *)
Theorem select_csv_reads_with_defaults w picked st df :
  file_kind picked = CSV ->
  read_csv w picked "," None = Ok df ->
  exists st',
    select_file w picked st = (Next tt, st')
    /\ filepath st' = Some picked
    /\ preview_tableview st'
       = (if Z.eqb (show_preview st) 1
          then build_table_data (columns df) (values df)
          else build_table_data [] [])
    /\ import_btn st'
       = Some {| master := Some (widgets st); command := df; btn_packed := true |}
    /\ commit_available st' = true
    /\ errors st' = errors st.
Proof.
  intros Hk Hr. assert (picked <> "") as Hne by (apply file_kind_known_not_empty; congruence).
  rewrite select_file_unfold, select_file_options_cases, Hk by done.
  edestruct refresh_parsed_state as (st' & -> & Hv & Hb & Hc & Hp & _ & He & _);
    [eapply (load_csv_parsed w _ picked _ "," "Default" "," df); try done;
     reflexivity|reflexivity|].
  exists st'. by split_and!.
Qed.

Lemma select_csv_reads_with_defaults_witness :
  exists st',
    select_file (readable xy_table) "/tmp/other.csv" sales_semicolon = (Next tt, st')
    /\ filepath st' = Some "/tmp/other.csv"
    /\ (command <$> import_btn st') = Some xy_table
    /\ commit_available st' = true.
Proof.
  destruct (select_csv_reads_with_defaults (readable xy_table) "/tmp/other.csv"
              sales_semicolon xy_table eq_refl eq_refl)
    as (st' & E & Hp & _ & Hb & Hc & _).
  exists st'. split_and!; [exact E|exact Hp|by rewrite Hb|exact Hc].
Defined.

(** X9. Picking a workbook reads it at once from its first sheet, with the
    number Tk reads from the text [0] as rows to skip and no missing-values
    marker; later sheets are only offered in the sheet box. *)
Theorem select_workbook_reads_first_sheet w picked st first others n df :
  file_kind picked = EXCEL ->
  ExcelFile_sheet_names w picked = Ok (first :: others) ->
  IntVar_get w "0" = Ok n ->
  read_excel w picked first n None = Ok df ->
  exists st',
    select_file w picked st = (Next tt, st')
    /\ filepath st' = Some picked
    /\ (options <$> import_options_frame st')
       = Some (ExcelOptionsFrame (first :: others) first "0" "Default")
    /\ preview_tableview st'
       = (if Z.eqb (show_preview st) 1
          then build_table_data (columns df) (values df)
          else build_table_data [] [])
    /\ (command <$> import_btn st') = Some df
    /\ commit_available st' = true
    /\ errors st' = errors st.
Proof.
  intros Hk Hs Hn Hr.
  assert (picked <> "") as Hne by (apply file_kind_known_not_empty; congruence).
  rewrite select_file_unfold, select_file_options_cases, Hk, Hs by done.
  edestruct refresh_parsed_state as (st' & -> & Hv & Hb & Hc & Hp & Hf & He & _);
    [eapply (load_excel_parsed w _ picked _ (first :: others) first "0" "Default" n df);
     try done; reflexivity|reflexivity|].
  exists st'. split_and!; try done. - by rewrite Hf. - by rewrite Hb.
Qed.

Lemma select_workbook_reads_first_sheet_witness :
  exists st',
    select_file (readable xy_table) "/tmp/book.xlsx" sales_open = (Next tt, st')
    /\ (command <$> import_btn st') = Some xy_table
    /\ commit_available st' = true.
Proof.
  destruct (select_workbook_reads_first_sheet (readable xy_table) "/tmp/book.xlsx"
              sales_open "Sheet1" [] 0%Z xy_table eq_refl eq_refl eq_refl eq_refl)
    as (st' & E & _ & _ & _ & Hb & Hc & _).
  by exists st'.
Defined.

(** ** What holds in every state the window can reach *)

Lemma frame_kind_type_into v text opts :
  frame_kind (type_into v text opts) = frame_kind opts.
Proof. by destruct opts, v. Qed.

Lemma commit_unavailable_forgotten st old :
  import_options_frame st = forget <$> old -> commit_available st = false.
Proof.
  intros Hf. unfold commit_available. rewrite Hf.
  destruct (import_btn st); [|done]. destruct old; [|done]. cbn.
  by rewrite andb_false_r.
Qed.

(** A button made before the frame that is there now is not on screen. *)
Lemma commit_unavailable_stale st fr :
  import_options_frame st = Some fr ->
  (forall b m, import_btn st = Some b -> master b = Some m -> m < widget_id fr) ->
  commit_available st = false.
Proof.
  intros Hf Hb. unfold commit_available. rewrite Hf.
  destruct (import_btn st) as [b|]; [|done].
  destruct (master b) as [m|] eqn:Hm; [|by rewrite andb_false_r].
  specialize (Hb b m eq_refl Hm).
  assert (Nat.eqb m (widget_id fr) = false) as -> by (apply Nat.eqb_neq; lia).
  by rewrite andb_false_r.
Qed.

Lemma import_preview_data_ids_bounded w st :
  ids_bounded st -> ids_bounded (snd (import_preview_data w st)).
Proof.
  intros [Hf Hb].
  destruct (import_preview_data_cases w st) as [->|[->|[(df & _ & ->)| ->]]];
    [done|done| |done].
  rewrite show_table_spec. split; cbn.
  - intros fr ?%Hf. lia.
  - intros b m [= <-]. cbn. destruct (import_options_frame st) as [fr|]; [|done].
    intros [= <-]. specialize (Hf fr eq_refl). lia.
Qed.

Lemma import_preview_data_frame_fits w st :
  frame_fits_path st -> frame_fits_path (snd (import_preview_data w st)).
Proof.
  intros H fr. destruct (import_preview_data_keeps w st) as (-> & -> & _). apply H.
Qed.

Lemma ids_bounded_forget st path :
  ids_bounded st ->
  ids_bounded (set_import_options_frame (forget <$> import_options_frame st)
                 (set_filepath path st)).
Proof.
  intros [Hf Hb]. split; cbn; [|done].
  intros fr. destruct (import_options_frame st) as [old|]; [|done].
  intros [= <-]. exact (Hf old eq_refl).
Qed.

Lemma frame_fits_forget st path errs :
  frame_fits_path
    (set_errors errs
       (set_import_options_frame (forget <$> import_options_frame st)
          (set_filepath path st))).
Proof.
  intros fr. cbn. destruct (import_options_frame st); [|done]. by intros [= <-].
Qed.

Lemma select_file_ids_bounded w picked st :
  ids_bounded st -> ids_bounded (snd (select_file w picked st)).
Proof.
  intros Hi. destruct (String.eqb_spec picked "") as [->|Hne]; [done|].
  pose proof (ids_bounded_forget st (Some picked) Hi) as [Hf Hb].
  assert (forall fr, widget_id fr = widgets st ->
            ids_bounded
              (set_import_options_frame (Some fr)
                 (set_widgets (S (widgets st))
                    (set_import_options_frame (forget <$> import_options_frame st)
                       (set_filepath (Some picked) st))))) as Hnew.
  { intros fr Hid. split; cbn.
    - intros ? [= <-]. lia.
    - intros b m Hbtn Hm. specialize (Hb b m Hbtn Hm). cbn in Hb. lia. }
  rewrite select_file_unfold, select_file_options_cases by done.
  destruct (file_kind picked).
  - by apply import_preview_data_ids_bounded, Hnew.
  - destruct (ExcelFile_sheet_names w picked) as [[|n ns]|]; cbn.
    + split; cbn; [intros fr ?%Hf|intros b m ? ?%(Hb b)]; cbn in *; (done || lia).
    + by apply import_preview_data_ids_bounded, Hnew.
    + by split.
  - by apply import_preview_data_ids_bounded, Hnew.
  - by split.
Qed.

Lemma select_file_frame_fits w picked st :
  frame_fits_path st -> frame_fits_path (snd (select_file w picked st)).
Proof.
  intros Hi. destruct (String.eqb_spec picked "") as [->|Hne]; [done|].
  assert (forall fr st1, frame_kind (options fr) = file_kind picked ->
            filepath st1 = Some picked ->
            frame_fits_path (set_import_options_frame (Some fr) st1)) as Hnew.
  { intros fr st1 Hk Hp ? [= <-] _. by exists picked. }
  rewrite select_file_unfold, select_file_options_cases by done.
  destruct (file_kind picked) eqn:Hk.
  - by apply import_preview_data_frame_fits, Hnew.
  - destruct (ExcelFile_sheet_names w picked) as [[|n ns]|]; cbn.
    + intros fr. cbn. destruct (import_options_frame st); [|done]. by intros [= <-].
    + by apply import_preview_data_frame_fits, Hnew.
    + intros fr. cbn. destruct (import_options_frame st); [|done]. by intros [= <-].
  - by apply import_preview_data_frame_fits, Hnew.
  - apply frame_fits_forget.
Qed.

Lemma handle_ids_bounded e st : ids_bounded st -> ids_bounded (handle e st).
Proof.
  destruct e as [w picked|w| |v text]; cbn [handle].
  - apply select_file_ids_bounded.
  - apply import_preview_data_ids_bounded.
  - done.
  - intros [Hf Hb]. split; cbn; [|done].
    intros fr. destruct (import_options_frame st) as [old|]; [|done].
    intros [= <-]. exact (Hf old eq_refl).
Qed.

Lemma handle_frame_fits e st : frame_fits_path st -> frame_fits_path (handle e st).
Proof.
  destruct e as [w picked|w| |v text]; cbn [handle].
  - apply select_file_frame_fits.
  - apply import_preview_data_frame_fits.
  - done.
  - intros H fr. cbn. destruct (import_options_frame st) as [old|] eqn:Ho; [|done].
    intros [= <-] Hp. destruct (H old Ho Hp) as (path & ? & ?).
    exists path. cbn. by rewrite frame_kind_type_into.
Qed.

Lemma run_invariants evs st :
  ids_bounded st -> frame_fits_path st ->
  ids_bounded (run evs st) /\ frame_fits_path (run evs st).
Proof.
  revert st. induction evs as [|e evs IH]; intros st Hi Hf; [done|].
  rewrite run_cons. apply IH; [by apply handle_ids_bounded|by apply handle_frame_fits].
Qed.

Lemma new_popup_invariants :
  ids_bounded new_DataImportPopup /\ frame_fits_path new_DataImportPopup.
Proof. by repeat split. Qed.

(** X10. Whatever the user did since the window opened, an options frame
    that is on screen is of the class that goes with the stored path (csv
    options on a path ending in [.csv], and so on), so the getters the
    refresh calls exist on it, and a press of Refresh returns without an
    exception. A frame left from a file before is never on screen. *)
Theorem reachable_frame_fits_path evs w fr :
  import_options_frame (run evs new_DataImportPopup) = Some fr ->
  packed fr = true ->
  (exists path,
     filepath (run evs new_DataImportPopup) = Some path
     /\ frame_kind (options fr) = file_kind path)
  /\ fst (import_preview_data w (run evs new_DataImportPopup)) = Next tt.
Proof.
  intros Hf Hp.
  destruct (run_invariants evs new_DataImportPopup) as [_ Hfit];
    [apply new_popup_invariants..|].
  destruct (Hfit fr Hf Hp) as (path & Hpath & Hk). split; [by exists path|].
  apply import_preview_data_no_exception. by rewrite Hpath.
Qed.

Lemma reachable_frame_fits_path_witness :
  (exists path,
     filepath (run [ClickSelectFile (readable ab_table) "/tmp/book.xlsx";
                    TypeInto skiprows_var "abc"] new_DataImportPopup) = Some path
     /\ EXCEL = file_kind path)
  /\ fst (import_preview_data unreadable
            (run [ClickSelectFile (readable ab_table) "/tmp/book.xlsx";
                  TypeInto skiprows_var "abc"] new_DataImportPopup)) = Next tt.
Proof.
  apply (reachable_frame_fits_path
           [ClickSelectFile (readable ab_table) "/tmp/book.xlsx";
            TypeInto skiprows_var "abc"] unreadable
           {| widget_id := 0;
              options := ExcelOptionsFrame ["Sheet1"] "Sheet1" "abc" "Default";
              refresh_btn := true; packed := true |}); reflexivity.
Defined.

Lemma select_file_button_fresh w picked st :
  ids_bounded st -> picked <> "" ->
  commit_available (snd (select_file w picked st)) = true ->
  exists df,
    parsed_by (ClickSelectFile w picked) st = Some df
    /\ (command <$> import_btn (snd (select_file w picked st))) = Some df.
Proof.
  intros [Hf Hb] Hne. cbn [parsed_by].
  rewrite select_file_unfold, select_file_options_cases by done.
  assert (forall fr, widget_id fr = widgets st ->
    let st1 := set_import_options_frame (Some fr)
                 (set_widgets (S (widgets st))
                    (set_import_options_frame (forget <$> import_options_frame st)
                       (set_filepath (Some picked) st))) in
    commit_available (snd (import_preview_data w st1)) = true ->
    exists df, parsed w st1 = Some df
               /\ (command <$> import_btn (snd (import_preview_data w st1))) = Some df)
    as Hnew.
  { intros fr Hid st1 Hc.
    assert (commit_available st1 = false) as Hst1.
    { apply (commit_unavailable_stale st1 fr); [done|].
      intros b m Hbtn Hm. rewrite Hid. exact (Hb b m Hbtn Hm). }
    unfold parsed.
    destruct (import_preview_data_cases w st1) as [E|[E|[(df & El & E)|E]]];
      rewrite E in Hc |- *;
      [exfalso; unfold commit_available in Hc, Hst1; cbn in Hc, Hst1; congruence..
      | |exfalso; unfold commit_available in Hc, Hst1; cbn in Hc, Hst1; congruence].
    rewrite El, show_table_spec. by exists df. }
  destruct (file_kind picked).
  - by apply Hnew.
  - destruct (ExcelFile_sheet_names w picked) as [[|n ns]|]; cbn [snd].
    + intros Hc. by rewrite (commit_unavailable_forgotten _ (import_options_frame st)) in Hc.
    + by apply Hnew.
    + intros Hc. by rewrite (commit_unavailable_forgotten _ (import_options_frame st)) in Hc.
  - by apply Hnew.
  - intros Hc. by rewrite (commit_unavailable_forgotten _ (import_options_frame st)) in Hc.
Qed.

(** X11. Right after a file was picked, the import button is on screen
    only if this very pick parsed a table, and then the button is bound to
    that table. A button bound to the table of the file before stays in the
    old frame, off the screen, so that table cannot be imported under the
    new path. *)
Theorem reachable_select_hides_stale_button evs w picked :
  picked <> "" ->
  commit_available (handle (ClickSelectFile w picked) (run evs new_DataImportPopup)) = true ->
  exists df,
    parsed_by (ClickSelectFile w picked) (run evs new_DataImportPopup) = Some df
    /\ (command <$> import_btn (handle (ClickSelectFile w picked)
                                  (run evs new_DataImportPopup))) = Some df.
Proof.
  intros Hne Hc.
  destruct (run_invariants evs new_DataImportPopup) as [Hi _];
    [apply new_popup_invariants..|].
  by apply select_file_button_fresh.
Qed.

Lemma reachable_select_hides_stale_button_witness :
  exists df,
    parsed_by (ClickSelectFile (readable xy_table) "/tmp/other.csv")
      (run [ClickSelectFile (readable ab_table) "/tmp/sales_Q1.csv"] new_DataImportPopup)
    = Some df
    /\ (command <$> import_btn
          (handle (ClickSelectFile (readable xy_table) "/tmp/other.csv")
             (run [ClickSelectFile (readable ab_table) "/tmp/sales_Q1.csv"]
                new_DataImportPopup))) = Some df.
Proof.
  apply (reachable_select_hides_stale_button
           [ClickSelectFile (readable ab_table) "/tmp/sales_Q1.csv"]
           (readable xy_table) "/tmp/other.csv"); [discriminate|reflexivity].
Defined.

(** A csv file that parses, then one that does not: the button of the first
    is still bound, but not on screen. *)
Example stale_button_off_screen :
  (command <$> import_btn
     (run [ClickSelectFile (readable ab_table) "/tmp/sales_Q1.csv";
           ClickSelectFile unreadable "/tmp/other.csv"] new_DataImportPopup))
  = Some ab_table
  /\ commit_available
       (run [ClickSelectFile (readable ab_table) "/tmp/sales_Q1.csv";
             ClickSelectFile unreadable "/tmp/other.csv"] new_DataImportPopup) = false.
Proof. by vm_compute. Qed.

(** ** Refreshing again *)

(** How the first half of the refresh ends depends on the path and on the
    options frame only. *)
Lemma load_selected_file_same_inputs w st1 st2 :
  filepath st1 = filepath st2 ->
  import_options_frame st1 = import_options_frame st2 ->
  fst (load_selected_file w st1) = fst (load_selected_file w st2).
Proof.
  destruct st1, st2. cbn. intros -> ->. py_unfold. cbn.
  repeat (case_match; simplify_eq/=); congruence.
Qed.

(** X12. Pressing Refresh a second time, with nothing changed in between
    and pandas answering as before, changes nothing the user sees: the same
    preview, the same import button bound to the same table, the same
    outcome of the call. *)
Theorem refresh_twice_same w st :
  preview_tableview (snd (import_preview_data w (snd (import_preview_data w st))))
  = preview_tableview (snd (import_preview_data w st))
  /\ import_btn (snd (import_preview_data w (snd (import_preview_data w st))))
     = import_btn (snd (import_preview_data w st))
  /\ fst (import_preview_data w (snd (import_preview_data w st)))
     = fst (import_preview_data w st).
Proof.
  rewrite (import_preview_data_unfold w st).
  destruct (load_selected_file_cases w st) as [[df E]|[E|[E|E]]]; rewrite E;
    rewrite ?show_table_spec; cbn [fst snd];
    match goal with
    | |- context [import_preview_data w ?s] =>
        assert (fst (load_selected_file w s) = fst (load_selected_file w st)) as Hl
          by (by apply load_selected_file_same_inputs);
        rewrite E in Hl; rewrite (import_preview_data_unfold w s);
        destruct (load_selected_file_cases w s) as [[df1 E1]|[E1|[E1|E1]]];
        try rewrite E1 in Hl; rewrite E1; cbn in Hl;
        first [congruence | simplify_eq; by rewrite ?show_table_spec]
    end.
Qed.

(** ** Messages *)

Lemma cons_neq {A} (x : A) (l : list A) : x :: l <> l.
Proof. intros H. apply (f_equal length) in H. cbn in H. lia. Qed.

Lemma load_selected_file_message w st :
  load_selected_file w st = (Returned, set_errors (skiprows_msg :: errors st) st) ->
  exists path, filepath st = Some path /\ file_kind path = EXCEL.
Proof.
  intros H. assert (errors (snd (load_selected_file w st)) <> errors st) as Hne.
  { rewrite H. apply cons_neq. }
  clear H. revert Hne. unfold load_selected_file, bind, self_filepath.
  destruct (filepath st) as [path|]; [|done].
  destruct (endswith path ".csv") eqn:Hc.
  { unfold try_except, bind, frame_call, eval, ret, raise, return_.
    repeat (case_match; simplify_eq/=); done. }
  destruct (endswith path ".xlsx") eqn:Hx.
  { intros _. exists path. split; [done|]. unfold file_kind. by rewrite Hc, Hx. }
  destruct (endswith path ".sav"); [|done].
  unfold try_except, eval, ret, raise, return_.
  repeat (case_match; simplify_eq/=); done.
Qed.

(** X13. A press of a button shows at most one message, and only one of
    two: the one about the file types, when the file just picked is of no
    supported kind, and the one about the skip rows, when the stored path
    is a workbook. Nothing else is ever reported, and no message is taken
    back. *)
Theorem handle_errors e st :
  errors (handle e st) = errors st
  \/ (errors (handle e st) = unsupported_msg :: errors st
      /\ exists w picked, e = ClickSelectFile w picked /\ file_kind picked = UNKNOWN)
  \/ (errors (handle e st) = skiprows_msg :: errors st
      /\ exists path, filepath (handle e st) = Some path /\ file_kind path = EXCEL).
Proof.
  assert (forall w st1,
            errors (snd (import_preview_data w st1)) = errors st1
            \/ (errors (snd (import_preview_data w st1)) = skiprows_msg :: errors st1
                /\ exists path, filepath (snd (import_preview_data w st1)) = Some path
                                /\ file_kind path = EXCEL)) as Hi.
  { intros w st1. rewrite import_preview_data_unfold.
    destruct (load_selected_file_cases w st1) as [[df ->]|[->|[E| ->]]];
      rewrite ?show_table_spec; [by left..| |by left].
    rewrite E. right. split; [done|]. by apply load_selected_file_message in E. }
  destruct e as [w picked|w| |v text]; cbn [handle]; [| |by left..].
  - destruct (String.eqb_spec picked "") as [->|Hne]; [by left|].
    rewrite select_file_unfold, select_file_options_cases by done.
    destruct (file_kind picked) eqn:Hk.
    + destruct (Hi w (set_import_options_frame
                        (Some {| widget_id := widgets st;
                                 options := CSVOptionsFrame "," "Default";
                                 refresh_btn := true; packed := true |})
                        (set_widgets (S (widgets st))
                           (set_import_options_frame (forget <$> import_options_frame st)
                              (set_filepath (Some picked) st))))) as [H|H]; eauto.
    + destruct (ExcelFile_sheet_names w picked) as [[|n ns]|]; [by left| |by left].
      destruct (Hi w (set_import_options_frame
                        (Some {| widget_id := widgets st;
                                 options := ExcelOptionsFrame (n :: ns) n "0" "Default";
                                 refresh_btn := true; packed := true |})
                        (set_widgets (S (widgets st))
                           (set_import_options_frame (forget <$> import_options_frame st)
                              (set_filepath (Some picked) st))))) as [H|H]; eauto.
    + destruct (Hi w (set_import_options_frame
                        (Some {| widget_id := widgets st; options := SPSSOptionsFrame;
                                 refresh_btn := false; packed := true |})
                        (set_widgets (S (widgets st))
                           (set_import_options_frame (forget <$> import_options_frame st)
                              (set_filepath (Some picked) st))))) as [H|H]; eauto.
    + right. left. split; [done|]. by exists w, picked.
  - destruct (Hi w st) as [H|H]; eauto.
Qed.

(** ** The name, in full *)

Lemma dot_after_class_cons c d rest :
  dot_after_class (c :: d :: rest)
  = (in_class c && dot_char d) || dot_after_class (d :: rest).
Proof. reflexivity. Qed.

Lemma match_here_sound cs m :
  match_here cs = Some m ->
  m <> [] /\ forallb in_class m = true /\ exists post, cs = m ++ "." :: post.
Proof.
  revert m. induction cs as [|c cs IH]; [done|]. intros m.
  destruct cs as [|d cs]; [cbn; by destruct (in_class c)|].
  rewrite match_here_cons. destruct (in_class c) eqn:Hc; [|done].
  destruct (dot_char d) eqn:Hd.
  - intros [= <-]. apply dot_char_eq in Hd as ->.
    split_and!; [done|by cbn; rewrite Hc|]. by exists cs.
  - destruct (match_here (d :: cs)) as [m'|]; [|done]. intros [= <-].
    destruct (IH m' eq_refl) as (_ & Hcl & post & E). split_and!; [done| |].
    + cbn. by rewrite Hc, Hcl.
    + exists post. cbn [app]. by rewrite <- E.
Qed.

Lemma match_here_none cs : dot_after_class cs = false -> match_here cs = None.
Proof.
  induction cs as [|c cs IH]; [done|].
  destruct cs as [|d cs]; [cbn; by destruct (in_class c)|].
  rewrite dot_after_class_cons, match_here_cons.
  intros [H1 H2]%orb_false_elim. rewrite (IH H2).
  destruct (in_class c); [|done]. cbn in H1. by rewrite H1.
Qed.

Lemma match_here_blocked_run l rest :
  l <> [] -> dot_after_class l = false -> ends_outside_class l = true ->
  match_here (l ++ rest) = None.
Proof.
  induction l as [|c l IH]; [done|]. intros _ Hd Hout.
  destruct (in_class c) eqn:Hc; [|by apply match_here_outside].
  destruct l as [|d l].
  - unfold ends_outside_class in Hout. cbn in Hout. by rewrite Hc in Hout.
  - rewrite dot_after_class_cons, Hc in Hd. apply orb_false_elim in Hd as [Hd1 Hd2].
    cbn in Hd1. cbn [app] in *. by rewrite match_here_cons, Hc, Hd1, IH.
Qed.

Lemma search_spec cs m :
  search cs = Some m <->
  exists pre post,
    cs = pre ++ m ++ "." :: post
    /\ m <> [] /\ forallb in_class m = true
    /\ ends_outside_class pre = true /\ dot_after_class pre = false.
Proof.
  split.
  - revert m. induction cs as [|c cs IH]; [done|]. intros m.
    rewrite search_unfold.
    destruct (match_here (c :: cs)) as [m'|] eqn:Hm.
    + intros [= <-]. apply match_here_sound in Hm as (Hne & Hcl & post & E).
      by exists [], post.
    + intros (pre & post & -> & Hne & Hcl & Hout & Hd)%IH.
      exists (c :: pre), post. split_and!; [done..| |].
      * destruct pre as [|d pre]; [|exact Hout].
        unfold ends_outside_class. cbn. destruct (in_class c) eqn:Hc; [|done].
        assert (match_here ((c :: m) ++ "." :: post) = Some (c :: m)) as Hr
          by (apply match_here_run; [done|cbn; by rewrite Hc, Hcl]).
        cbn [app] in Hr, Hm. congruence.
      * destruct pre as [|d pre]; [done|].
        rewrite dot_after_class_cons, Hd, orb_false_r.
        destruct (in_class c && dot_char d) eqn:Hcd; [|done].
        apply andb_prop in Hcd as [Hc Hdot].
        cbn [app] in Hm. by rewrite match_here_cons, Hc, Hdot in Hm.
  - intros (pre & post & -> & Hne & Hcl & Hout & Hd). induction pre as [|c pre IH].
    + cbn [app]. by rewrite search_unfold, match_here_run.
    + rewrite search_unfold, (match_here_blocked_run (c :: pre)) by done.
      cbn [app]. destruct pre as [|d pre]; [by apply IH|].
      rewrite dot_after_class_cons in Hd. apply orb_false_elim in Hd as [_ Hd].
      by apply IH.
Qed.

Lemma search_none_iff cs : search cs = None <-> dot_after_class cs = false.
Proof.
  split.
  - induction cs as [|c cs IH]; [done|]. rewrite search_unfold.
    destruct (match_here (c :: cs)) as [m|] eqn:Hm; [done|]. intros Hr%IH.
    destruct cs as [|d cs]; [done|]. rewrite dot_after_class_cons, Hr, orb_false_r.
    destruct (in_class c && dot_char d) eqn:Hcd; [|done].
    apply andb_prop in Hcd as [Hc Hdot]. by rewrite match_here_cons, Hc, Hdot in Hm.
  - induction cs as [|c cs IH]; [done|]. intros Hd.
    rewrite search_unfold, match_here_none by done.
    destruct cs as [|d cs]; [done|]. apply IH.
    rewrite dot_after_class_cons in Hd. by apply orb_false_elim in Hd as [_ ?].
Qed.

(** X14. The name [show] extracts from a path, in full: it is [name]
    exactly when the characters of the path read [pre], then the characters
    of [name], then a dot, then [post], where [name] is a non-empty run of
    characters of the class (word characters of any script, blanks,
    hyphens), [pre] is empty or ends outside that class, and nowhere in
    [pre] does a dot directly follow a character of the class. So the name
    is never empty, never holds a dot or a slash, and is cut at the first
    dot that follows a character of the class, wherever in the path that
    is. *)
Theorem re_search_spec s name :
  re_search s = Some name <->
  exists pre m post,
    chars s = pre ++ m ++ "." :: post /\ name = join m
    /\ m <> [] /\ forallb in_class m = true
    /\ ends_outside_class pre = true /\ dot_after_class pre = false.
Proof.
  unfold re_search. split.
  - destruct (search (chars s)) as [m|] eqn:E; [|done]. intros [= <-].
    apply search_spec in E as (pre & post & E & H). by exists pre, m, post.
  - intros (pre & m & post & E & -> & H).
    assert (search (chars s) = Some m) as ->; [|done].
    apply search_spec. by exists pre, post.
Qed.

(** X15. [show] returns no name exactly when no dot of the path comes
    directly after a character of the class, that is after a letter or
    digit of any script, an underscore, a blank or a hyphen: a path without
    a dot, but also [.hidden] or [report).csv]. *)
Theorem re_search_none_iff s :
  re_search s = None <-> dot_after_class (chars s) = false.
Proof.
  rewrite <- search_none_iff. unfold re_search.
  by destruct (search (chars s)).
Qed.

Example re_search_no_name :
  re_search "/tmp/.hidden" = None /\ re_search "/tmp/report).csv" = None.
Proof. by vm_compute. Qed.

(** Names with letters outside ASCII, and a sign that is no word character. *)
Example re_search_unicode :
  re_search "/tmp/données.csv" = Some "données"
  /\ re_search "/tmp/café.csv" = Some "café"
  /\ re_search "/tmp/данные 2024.csv" = Some "данные 2024"
  /\ re_search "/tmp/数据.csv" = Some "数据"
  /\ re_search "/tmp/a×b.csv" = Some "b".
Proof. by vm_compute. Qed.

(** ** The earlier copy *)

Lemma legacy_import_preview_data_cases w st :
  Legacy.import_preview_data w st = (Next tt, st)
  \/ (exists df, Legacy.import_preview_data w st = show_table df st)
  \/ Legacy.import_preview_data w st = (Raised AttributeError, st).
Proof.
  unfold Legacy.import_preview_data, call, bind.
  destruct (legacy_load_selected_file_cases w st) as [[df ->]|[->| ->]]; eauto.
  right. left. exists df. by rewrite show_table_spec.
Qed.

Lemma legacy_import_preview_data_errors w st :
  errors (snd (Legacy.import_preview_data w st)) = errors st.
Proof.
  destruct (legacy_import_preview_data_cases w st) as [->|[[df ->]| ->]];
    by rewrite ?show_table_spec.
Qed.

(** X16. In the earlier copy a cancelled picker (the empty path) and a file
    of no supported kind are treated alike, and silently: the path is
    stored, the options frame goes off the screen (and the import button
    with it), no message is shown, and the preview stays. *)
Theorem legacy_select_file_unknown w picked st :
  file_kind picked = UNKNOWN ->
  Legacy.select_file w picked st =
  (Next tt,
   set_import_options_frame (forget <$> import_options_frame st)
     (set_filepath (Some picked) st))
  /\ commit_available (snd (Legacy.select_file w picked st)) = false
  /\ errors (snd (Legacy.select_file w picked st)) = errors st.
Proof.
  intros (Hc & Hx & Hs)%file_kind_unknown.
  assert (Legacy.select_file w picked st =
          (Next tt,
           set_import_options_frame (forget <$> import_options_frame st)
             (set_filepath (Some picked) st))) as ->.
  { unfold Legacy.select_file, Legacy.import_preview_data, Legacy.load_selected_file,
      call, bind, modify, self_filepath, ret, return_.
    cbn. rewrite Hc, Hx, Hs. cbn. by rewrite Hc, Hx, Hs. }
  split_and!; [done| |done].
  by apply (commit_unavailable_forgotten _ (import_options_frame st)).
Qed.

Lemma legacy_select_file_unknown_witness :
  Legacy.select_file unreadable "" sales_open =
  (Next tt,
   set_import_options_frame (forget <$> import_options_frame sales_open)
     (set_filepath (Some "") sales_open))
  /\ commit_available (snd (Legacy.select_file unreadable "" sales_open)) = false
  /\ errors (snd (Legacy.select_file unreadable "" sales_open)) = errors sales_open.
Proof. apply (legacy_select_file_unknown unreadable "" sales_open). reflexivity. Defined.

(** X17. The earlier copy has no check of the skip rows: when Tk cannot
    read the text as a number, the exception is caught with those of the
    parser and the refresh of a workbook does nothing, without a message. *)
Theorem legacy_refresh_skiprows_silent w st path fr names sheet skip mv :
  filepath st = Some path -> file_kind path = EXCEL ->
  import_options_frame st = Some fr ->
  options fr = ExcelOptionsFrame names sheet skip mv ->
  raises (IntVar_get w skip) ->
  Legacy.import_preview_data w st = (Next tt, st).
Proof.
  intros Hp Hk Hf Ho Hr. pose proof (file_kind_tests path) as Ht. rewrite Hk in Ht.
  destruct Ht as [Hc Hx].
  unfold Legacy.import_preview_data, Legacy.load_selected_file, call, try_except, bind,
    frame_call, self_filepath, eval, ret, raise, return_, get_sheet_name, get_skiprows.
  rewrite Hp, Hc, Hx, Hf, Ho. cbn. rewrite Hf, Ho. cbn.
  by destruct (IntVar_get w skip).
Qed.

Lemma legacy_refresh_skiprows_silent_witness :
  Legacy.import_preview_data unreadable (handle (TypeInto skiprows_var "abc") book_open)
  = (Next tt, handle (TypeInto skiprows_var "abc") book_open).
Proof.
  apply (legacy_refresh_skiprows_silent unreadable
           (handle (TypeInto skiprows_var "abc") book_open) "/tmp/book.xlsx"
           {| widget_id := 0;
              options := ExcelOptionsFrame ["Sheet1"] "Sheet1" "abc" "Default";
              refresh_btn := true; packed := true |}
           ["Sheet1"] "Sheet1" "abc" "Default"); (reflexivity || exact I).
Defined.

(** X18. The earlier copy never shows a message, whatever is pressed or
    typed. *)
Theorem legacy_handle_errors e st : errors (Legacy.handle e st) = errors st.
Proof.
  destruct e as [w picked|w| |v text]; cbn [Legacy.handle];
    [|apply legacy_import_preview_data_errors|done..].
  unfold Legacy.select_file, call, bind, modify, self_filepath, new_widget, eval, ret,
    raise, new_ExcelOptionsFrame. cbn [filepath set_filepath set_import_options_frame].
  repeat (case_match; simplify_eq/=);
    repeat match goal with
      | H : Legacy.import_preview_data ?w' ?s = _ |- _ =>
          pose proof (legacy_import_preview_data_errors w' s) as He;
          rewrite H in He; clear H
      end; done.
Qed.

Lemma legacy_run_data_frame evs st : data_frame (Legacy.run evs st) = data_frame st.
Proof.
  revert st. induction evs as [|e evs IH]; intros st; [done|].
  unfold Legacy.run in *. cbn. by rewrite IH, legacy_handle_data_frame.
Qed.

(** X19. The host with the earlier popup: [open_import_window] never
    raises and never writes its own [data_frame]; closing the popup leaves
    the host's table as it is, and pressing Import while the button is on
    screen replaces the host's columns and rows by those of the table the
    button is bound to. *)
Theorem legacy_host_shows_import evs c app :
  fst (Main.open_import_window (Legacy.import_data evs c) app) = Next tt
  /\ Main.data_frame (snd (Main.open_import_window (Legacy.import_data evs c) app))
     = Main.data_frame app
  /\ Main.tableview (snd (Main.open_import_window (Legacy.import_data evs c) app))
     = match c, import_btn (Legacy.run evs new_DataImportPopup) with
       | ClickImport, Some b =>
           if commit_available (Legacy.run evs new_DataImportPopup)
           then build_table_data (columns (command b)) (values (command b))
           else Main.tableview app
       | _, _ => Main.tableview app
       end.
Proof.
  unfold Legacy.import_data, Legacy.show, Legacy.wait_window, Legacy.show_result.
  pose proof (legacy_run_data_frame evs new_DataImportPopup) as Hd. cbn in Hd.
  destruct c.
  - unfold commit_available, click_import.
    destruct (import_btn (Legacy.run evs new_DataImportPopup)) as [b|]; [|by cbn; rewrite Hd].
    match goal with |- context [if ?t then _ else _] => destruct t end;
      cbn; by rewrite ?Hd.
  - destruct (import_btn (Legacy.run evs new_DataImportPopup)); cbn; by rewrite Hd.
Qed.

Example legacy_host_shows_table :
  Main.tableview
    (snd (Main.open_import_window
            (Legacy.import_data
               [ClickSelectFile (readable ab_table) "/tmp/sales_Q1.csv"] ClickImport)
            Main.new_DataImportApp))
  = build_table_data ["a"; "b"] [[CInt 1; CInt 2]].
Proof. by vm_compute. Qed.

(** ** What a press leaves alone *)

(** X20. With the check button off, a refresh that parses a table empties
    the preview but still binds the import button to the whole table, and
    Import returns it: the check button governs the preview only. *)
Theorem preview_off_still_imports w st df :
  parsed w st = Some df -> show_preview st <> 1%Z ->
  preview_tableview (snd (import_preview_data w st)) = build_table_data [] []
  /\ data_frame (click_import (snd (import_preview_data w st))) = Some df
  /\ show_result (click_import (snd (import_preview_data w st)))
     = PyDict (Some df) (filename st).
Proof.
  unfold parsed. intros Hl Hs. rewrite import_preview_data_unfold.
  destruct (load_selected_file_cases w st) as [[df' E]|[E|[E|E]]];
    rewrite E in Hl |- *; simplify_eq.
  rewrite show_table_spec. unfold preview_of.
  destruct (Z.eqb_spec (show_preview st) 1); done.
Qed.

Lemma preview_off_still_imports_witness :
  preview_tableview
    (snd (import_preview_data (readable xy_table) (toggle_show_preview sales_open)))
  = build_table_data [] []
  /\ show_result
       (click_import
          (snd (import_preview_data (readable xy_table) (toggle_show_preview sales_open))))
     = PyDict (Some xy_table) (Some "sales_Q1").
Proof.
  destruct (preview_off_still_imports (readable xy_table)
              (toggle_show_preview sales_open) xy_table eq_refl) as (Hv & _ & Hr);
    [discriminate|]. by split.
Defined.

(** X21. A refresh, whatever its outcome, leaves the stored path, the
    options frame with what stands in its boxes, the check button, the
    table to return and the window itself alone; it can only write the
    preview, the import button and the messages. *)
Theorem refresh_leaves_selection w st :
  filepath (snd (import_preview_data w st)) = filepath st
  /\ import_options_frame (snd (import_preview_data w st)) = import_options_frame st
  /\ show_preview (snd (import_preview_data w st)) = show_preview st
  /\ data_frame (snd (import_preview_data w st)) = data_frame st
  /\ destroyed (snd (import_preview_data w st)) = destroyed st
  /\ widgets st <= widgets (snd (import_preview_data w st)).
Proof.
  destruct (import_preview_data_cases w st) as [->|[->|[(df & _ & ->)| ->]]];
    rewrite ?show_table_spec; cbn; split_and!; (done || lia).
Qed.

Lemma handle_destroyed e st : destroyed (handle e st) = destroyed st.
Proof.
  assert (forall w st1, destroyed (snd (import_preview_data w st1)) = destroyed st1) as Hi.
  { intros w st1.
    destruct (import_preview_data_cases w st1) as [->|[->|[(df & _ & ->)| ->]]];
      by rewrite ?show_table_spec. }
  destruct e as [w picked|w| |v text]; cbn [handle]; [|apply Hi|done..].
  destruct (String.eqb_spec picked "") as [->|Hne]; [done|].
  rewrite select_file_unfold, select_file_options_cases by done.
  destruct (file_kind picked); [by rewrite Hi| |by rewrite Hi|done].
  destruct (ExcelFile_sheet_names w picked) as [[|n ns]|]; [done|by rewrite Hi|done].
Qed.

(** X22. Nothing the user does in the window other than pressing Import
    sets the table to return or closes the window: after any presses,
    edits and toggles both are as they were. *)
Theorem run_keeps_result evs st :
  data_frame (run evs st) = data_frame st
  /\ destroyed (run evs st) = destroyed st.
Proof.
  revert st. induction evs as [|e evs IH]; intros st; [done|].
  rewrite run_cons. destruct (IH (handle e st)) as [-> ->].
  by rewrite handle_data_frame, handle_destroyed.
Qed.
